(** * intersense: domain detection and cache staleness

    A shallow embedding of [scripts/detect-domains.py]: the structural
    hash, the cache store, the tiered staleness check, the four signal
    gatherers, the domain scorer and the command line driver; and of
    [scripts/content-hash.py]: file discovery and the content hash.
    The properties the specification states about them follow, then
    further properties read off the code.

    Conventions of the embedding.
    - Python [str] values are Rocq [string]s; the embedding covers ASCII
      text, on which [str.encode("utf-8")] is the identity on bytes.
    - Python [bytes] are [list byte].
    - Python [float] scores are exact rationals ([Q]); the category
      scores are ratios of naturals and the weights are decimal
      constants, so every comparison made by the code is decided here on
      the exact values.
    - Values produced by the YAML/JSON/TOML loaders are [pyval]s.
    - Library entry points that parse or print text (PyYAML, json,
      tomllib, fnmatch, datetime, two regular expressions) are fields of
      the [PyLibs] interface; SHA-256 is implemented in full below. *)

From Stdlib Require Import ZArith List String Ascii Bool Lia QArith Qround.
From Stdlib Require Strings.Byte.
From Stdlib Require Import Permutation Sorted Lqa.
From stdpp Require Import base option list strings gmap.

Import ListNotations.
Set Warnings "-register-all".
#[local] Arguments String.append s1 s2 : simpl nomatch.
Local Open Scope string_scope.
Local Open Scope list_scope.
Local Open Scope Z_scope.

(* ===================================================================== *)
(** ** SHA-256 ([hashlib.sha256]) *)
(* ===================================================================== *)

Module SHA256.

(** 32-bit words are integers in [0, 2^32); additions wrap around. *)
Definition w32 (z : Z) : Z := z mod 2 ^ 32.
Definition add32 (a b : Z) : Z := w32 (a + b).
Definition not32 (a : Z) : Z := Z.lxor a 0xffffffff.
Definition rotr (n x : Z) : Z :=
  Z.lor (Z.shiftr x n) (w32 (Z.shiftl x (32 - n))).
Definition shr (n x : Z) : Z := Z.shiftr x n.

Definition Ch (x y z : Z) : Z := Z.lxor (Z.land x y) (Z.land (not32 x) z).
Definition Maj (x y z : Z) : Z :=
  Z.lxor (Z.lxor (Z.land x y) (Z.land x z)) (Z.land y z).
Definition Sigma0 (x : Z) : Z :=
  Z.lxor (Z.lxor (rotr 2 x) (rotr 13 x)) (rotr 22 x).
Definition Sigma1 (x : Z) : Z :=
  Z.lxor (Z.lxor (rotr 6 x) (rotr 11 x)) (rotr 25 x).
Definition sigma0 (x : Z) : Z :=
  Z.lxor (Z.lxor (rotr 7 x) (rotr 18 x)) (shr 3 x).
Definition sigma1 (x : Z) : Z :=
  Z.lxor (Z.lxor (rotr 17 x) (rotr 19 x)) (shr 10 x).

(** The constants are fixed by their definition in FIPS 180-4: the
    first 32 bits of the fractional part of the cube root (for [K]) or
    square root (for [H0]) of the first primes. *)
Fixpoint floor_root_from (bit : nat) (k n r : Z) : Z :=
  let c := r + 2 ^ Z.of_nat bit in
  let r' := if c ^ k <=? n then c else r in
  match bit with
  | O => r'
  | S bit' => floor_root_from bit' k n r'
  end.

(** The integer part of the [k]-th root of [n], for [n < 2^(41 k)]. *)
Definition floor_root (k n : Z) : Z := floor_root_from 40 k n 0.

Definition frac32 (k p : Z) : Z := w32 (floor_root k (p * 2 ^ (32 * k))).

Definition is_prime (n : Z) : bool :=
  forallb (fun d => negb (n mod Z.of_nat d =? 0)) (seq 2 (Z.to_nat n - 2)).

Definition primes : list Z :=
  List.filter is_prime (map Z.of_nat (seq 2 310)).

Definition K : list Z := Eval vm_compute in map (frac32 3) primes.

(** The eight working variables / chaining values. *)
Record state := St { sa : Z; sb : Z; sc : Z; sd : Z;
                     se : Z; sf : Z; sg : Z; sh : Z }.

Definition state_of (l : list Z) : state :=
  St (nth 0 l 0) (nth 1 l 0) (nth 2 l 0) (nth 3 l 0)
     (nth 4 l 0) (nth 5 l 0) (nth 6 l 0) (nth 7 l 0).

Definition H0 : state :=
  Eval vm_compute in state_of (map (frac32 2) (firstn 8 primes)).

(** Padding: a 1 bit, zeros up to 56 mod 64, the bit length on 64 bits. *)
Definition be_bytes (n : nat) (z : Z) : list Z :=
  map (fun i => Z.shiftr z (8 * Z.of_nat i) mod 256) (rev (seq 0 n)).

Definition pad (msg : list Z) : list Z :=
  let len := Z.of_nat (List.length msg) in
  let k := (55 - len) mod 64 in
  msg ++ [0x80] ++ repeat 0 (Z.to_nat k) ++ be_bytes 8 (8 * len).

Definition word_of (b3 b2 b1 b0 : Z) : Z :=
  Z.lor (Z.shiftl b3 24) (Z.lor (Z.shiftl b2 16) (Z.lor (Z.shiftl b1 8) b0)).

Fixpoint words (bs : list Z) : list Z :=
  match bs with
  | b3 :: b2 :: b1 :: b0 :: rest => word_of b3 b2 b1 b0 :: words rest
  | _ => []
  end.

(** Message schedule: [w] holds the last sixteen words, oldest first. *)
Fixpoint schedule (n : nat) (w : list Z) : list Z :=
  match n with
  | O => []
  | S n' =>
      let wt := add32 (add32 (sigma1 (nth 14 w 0)) (nth 9 w 0))
                      (add32 (sigma0 (nth 1 w 0)) (nth 0 w 0)) in
      wt :: schedule n' (tl w ++ [wt])
  end.

Definition round (s : state) (kw : Z * Z) : state :=
  let t1 := add32 (add32 (add32 (sh s) (Sigma1 (se s)))
                         (add32 (Ch (se s) (sf s) (sg s)) (fst kw)))
                  (snd kw) in
  let t2 := add32 (Sigma0 (sa s)) (Maj (sa s) (sb s) (sc s)) in
  St (add32 t1 t2) (sa s) (sb s) (sc s) (add32 (sd s) t1) (se s) (sf s) (sg s).

Definition compress (s : state) (block : list Z) : state :=
  let w16 := words block in
  let w := w16 ++ schedule 48 w16 in
  let r := fold_left round (combine K w) s in
  St (add32 (sa s) (sa r)) (add32 (sb s) (sb r))
     (add32 (sc s) (sc r)) (add32 (sd s) (sd r))
     (add32 (se s) (se r)) (add32 (sf s) (sf r))
     (add32 (sg s) (sg r)) (add32 (sh s) (sh r)).

Fixpoint blocks (fuel : nat) (s : state) (bs : list Z) : state :=
  match fuel, bs with
  | S fuel', _ :: _ => blocks fuel' (compress s (firstn 64 bs)) (skipn 64 bs)
  | _, _ => s
  end.

Definition digest_state (msg : list Byte.byte) : state :=
  let bs := pad (map (fun b => Z.of_N (Byte.to_N b)) msg) in
  blocks (List.length bs) H0 bs.

(** [hexdigest]: lower-case hexadecimal, eight digits per word. *)
Definition hex_digits : list ascii :=
  list_ascii_of_string "0123456789abcdef".

Definition hexdig (z : Z) : ascii :=
  nth (Z.to_nat (z mod 16)) hex_digits "0"%char.

Definition hex32 (x : Z) : list ascii :=
  [ hexdig (Z.shiftr x 28); hexdig (Z.shiftr x 24);
    hexdig (Z.shiftr x 20); hexdig (Z.shiftr x 16);
    hexdig (Z.shiftr x 12); hexdig (Z.shiftr x 8);
    hexdig (Z.shiftr x 4);  hexdig x ].

Definition hex_of_state (s : state) : list ascii :=
  hex32 (sa s) ++ hex32 (sb s) ++ hex32 (sc s) ++ hex32 (sd s) ++
  hex32 (se s) ++ hex32 (sf s) ++ hex32 (sg s) ++ hex32 (sh s).

Definition hexdigest (msg : list Byte.byte) : string :=
  string_of_list_ascii (hex_of_state (digest_state msg)).

End SHA256.

Definition encode_utf8 (s : string) : list Byte.byte := list_byte_of_string s.

(* ===================================================================== *)
(** ** Python string operations used by the script (ASCII semantics) *)
(* ===================================================================== *)

Module Py.

Definition code (c : ascii) : N := N_of_ascii c.

Definition lower_char (c : ascii) : ascii :=
  if ((65 <=? code c) && (code c <=? 90))%N
  then ascii_of_N (code c + 32) else c.

(** [s.lower()] *)
Fixpoint lower (s : string) : string :=
  match s with
  | EmptyString => EmptyString
  | String c s' => String (lower_char c) (lower s')
  end.

(** [s.replace(c, "")] for a one-character [c] *)
Fixpoint remove_char (c : ascii) (s : string) : string :=
  match s with
  | EmptyString => EmptyString
  | String d s' =>
      if Ascii.eqb d c then remove_char c s' else String d (remove_char c s')
  end.

(** [c in s] for a one-character [c] *)
Fixpoint contains_char (c : ascii) (s : string) : bool :=
  match s with
  | EmptyString => false
  | String d s' => Ascii.eqb d c || contains_char c s'
  end.

(** [s.startswith(p)] *)
Definition startswith (p s : string) : bool := String.prefix p s.

(** [needle in hay] *)
Fixpoint is_substring (needle hay : string) : bool :=
  match hay with
  | EmptyString => String.eqb needle EmptyString
  | String _ hay' => String.prefix needle hay || is_substring needle hay'
  end.

(** [s.split(sep)] for a one-character [sep]: never empty. *)
Fixpoint split_on (sep : ascii) (s : string) : list string :=
  match s with
  | EmptyString => [EmptyString]
  | String c s' =>
      if Ascii.eqb c sep then EmptyString :: split_on sep s'
      else match split_on sep s' with
           | [] => [String c EmptyString]
           | h :: t => String c h :: t
           end
  end.

(** [str.isspace] on one ASCII character: TAB..CR, FS..US and space. *)
Definition is_space (c : ascii) : bool :=
  (((9 <=? code c) && (code c <=? 13)) ||
   ((28 <=? code c) && (code c <=? 32)))%N.

Fixpoint lstrip (s : string) : string :=
  match s with
  | String c s' => if is_space c then lstrip s' else s
  | EmptyString => EmptyString
  end.

Fixpoint rstrip (s : string) : string :=
  match s with
  | EmptyString => EmptyString
  | String c s' =>
      match rstrip s' with
      | EmptyString => if is_space c then EmptyString else String c EmptyString
      | r => String c r
      end
  end.

(** [s.strip()] *)
Definition strip (s : string) : string := lstrip (rstrip s).

(** [s.split()]: maximal runs of non-space characters. *)
Fixpoint split_ws (s : string) : list string :=
  match s with
  | EmptyString => []
  | String c s' =>
      let r := split_ws s' in
      if is_space c then r
      else match s' with
           | EmptyString => [String c EmptyString]
           | String c' _ =>
               if is_space c' then String c EmptyString :: r
               else match r with
                    | h :: t => String c h :: t
                    | [] => [String c EmptyString]
                    end
           end
  end.

(** Line boundaries of [str.splitlines] in ASCII: LF, VT, FF, CR and
    FS, GS, RS; CR LF counts once. *)
Definition is_linebreak (c : ascii) : bool :=
  (((10 <=? code c) && (code c <=? 13)) ||
   ((28 <=? code c) && (code c <=? 30)))%N.

Fixpoint splitlines (s : string) : list string :=
  match s with
  | EmptyString => []
  | String c s' =>
      let r := splitlines s' in
      if is_linebreak c then
        match s' with
        | String c' _ =>
            if Ascii.eqb c "013" && Ascii.eqb c' "010" then r
            else EmptyString :: r
        | EmptyString => EmptyString :: r
        end
      else match r with
           | h :: t => String c h :: t
           | [] => [String c EmptyString]
           end
  end.

(** Splits a name at its last dot: [Some (stem, ext)] with
    [name = stem ++ "." ++ ext], [None] when there is no dot. *)
Fixpoint rsplit_dot (s : string) : option (string * string) :=
  match s with
  | EmptyString => None
  | String c s' =>
      match rsplit_dot s' with
      | Some (stem, ext) => Some (String c stem, ext)
      | None => if Ascii.eqb c "." then Some (EmptyString, s') else None
      end
  end.

(** [PurePath.suffix] of a file name (Python 3.11/3.12):
    [i = name.rfind('.')]; [name[i:]] if [0 < i < len(name) - 1]. *)
Definition suffix (name : string) : string :=
  match rsplit_dot name with
  | Some (String _ _, String c ext) => String "." (String c ext)
  | _ => EmptyString
  end.

(** [os.path.basename] *)
Definition basename (p : string) : string :=
  List.last (split_on "/" p) EmptyString.

Fixpoint all_dots (s : string) : bool :=
  match s with
  | EmptyString => true
  | String c s' => Ascii.eqb c "." && all_dots s'
  end.

(** Second component of [os.path.splitext]: the extension starts at
    the last dot of the base name unless only dots precede it. *)
Definition splitext_ext (p : string) : string :=
  match rsplit_dot (basename p) with
  | Some (stem, ext) =>
      if all_dots stem then EmptyString else String "." ext
  | None => EmptyString
  end.

(** [re.split(r"[>=<!\[; ]", s)[0]]: the text before the first
    character of the class. *)
Definition is_spec_char (c : ascii) : bool :=
  existsb (Ascii.eqb c) (list_ascii_of_string ">=<![; ").

Fixpoint before_specifier (s : string) : string :=
  match s with
  | EmptyString => EmptyString
  | String c s' =>
      if is_spec_char c then EmptyString else String c (before_specifier s')
  end.

(** [sorted] on strings: insertion sort by code-point order. *)
Fixpoint insert_sorted (x : string) (l : list string) : list string :=
  match l with
  | [] => [x]
  | y :: l' => if String.leb x y then x :: l else y :: insert_sorted x l'
  end.

Definition sorted (l : list string) : list string :=
  fold_right insert_sorted [] l.

(** Membership in a Python set or tuple of strings. *)
Definition mem (x : string) (l : list string) : bool :=
  existsb (String.eqb x) l.

End Py.

(* ===================================================================== *)
(** ** Values, the project tree and the library interface *)
(* ===================================================================== *)

(** Values returned by [yaml.safe_load], [json.loads] and
    [tomllib.loads].  A mapping is kept as an association list in
    document order; [POther] stands for any other object (a YAML
    timestamp, for instance), given by the text [str] prints for it. *)
Inductive pyval : Type :=
| PNone
| PBool (b : bool)
| PInt (z : Z)
| PFloat (q : Q)
| PStr (s : string)
| PList (l : list pyval)
| PDict (d : list (string * pyval))
| POther (repr : string).

(** Python truth value: [bool(v)]. *)
Definition truthy (v : pyval) : bool :=
  match v with
  | PNone => false
  | PBool b => b
  | PInt z => negb (z =? 0)
  | PFloat q => negb (Qeq_bool q 0)
  | PStr s => negb (String.eqb s "")
  | PList l => match l with [] => false | _ => true end
  | PDict d => match d with [] => false | _ => true end
  | POther _ => true
  end.

Fixpoint assoc {A : Type} (k : string) (d : list (string * A)) : option A :=
  match d with
  | [] => None
  | (k', v) :: d' => if String.eqb k k' then Some v else assoc k d'
  end.

(** [d.get(k)] on a mapping: [None] when the key is missing. *)
Definition dict_get (d : list (string * pyval)) (k : string) : pyval :=
  match assoc k d with Some v => v | None => PNone end.

(** [d.get(k, dflt)] *)
Definition dict_get_default (d : list (string * pyval)) (k : string)
    (dflt : pyval) : pyval :=
  match assoc k d with Some v => v | None => dflt end.

(** A file: its bytes ([None] when opening or reading raises [OSError])
    and its modification time ([None] when [stat] raises [OSError]). *)
Record file : Type := MkFile { f_content : option string; f_mtime : option Q }.

(** A directory entry.  [listable = false] makes [iterdir] raise
    [OSError]; [is_file]/[is_dir] on the entries still answer. *)
Inductive node : Type :=
| File (f : file)
| Dir (listable : bool) (entries : list (string * node)).

(** The outcome of one [subprocess.run]: [ProcUnavailable] is
    [TimeoutExpired] or [FileNotFoundError], the two the script catches. *)
Inductive proc : Type :=
| ProcUnavailable
| ProcDone (returncode : Z) (stdout stderr : string).

(** What [git] answers in the project directory; the two [git log]
    queries are functions of their [--since] argument. *)
Record git_env : Type := MkGit {
  git_is_shallow : proc;
  git_log_changes : string -> proc;
  git_log_renames : string -> proc
}.

Record project : Type := MkProject {
  p_listable : bool;
  p_entries : list (string * node);
  p_git : git_env
}.

Definition is_file_node (n : option node) : bool :=
  match n with Some (File _) => true | _ => false end.

Definition is_dir_node (n : option node) : bool :=
  match n with Some (Dir _ _) => true | _ => false end.

(** [(project / name)] for a single component. *)
Definition child (p : project) (name : string) : option node :=
  assoc name (p_entries p).

(** [path.read_bytes()] on a file. *)
Definition read_bytes (f : file) : option (list Byte.byte) :=
  match f_content f with
  | Some s => Some (list_byte_of_string s)
  | None => None
  end.

(** [datetime] values: the wall-clock fields as seconds from the epoch
    and the UTC offset in seconds ([None] for a naive value). *)
Record datetime : Type := MkDatetime { dt_wall : Q; dt_offset : option Q }.

(** The library entry points the script calls on text.  A loader
    answers [None] where the Python function raises. *)
Class PyLibs : Type := {
  yaml_safe_load : string -> option pyval;
  yaml_dump : pyval -> string;
  json_loads : string -> option pyval;
  tomllib_loads : string -> option pyval;
  fnmatch : string -> string -> bool;
  py_repr : pyval -> string;
  datetime_fromisoformat : string -> option datetime;
  date_fromisoformat : string -> option Q;
  datetime_isoformat : datetime -> string;
  (** [re.findall(r"require\s*\((.*?)\)", text, re.DOTALL)] *)
  re_require_blocks : string -> list string;
  (** [re.findall(r"^require\s+(\S+)", text, re.MULTILINE)] *)
  re_require_lines : string -> list string
}.

(* ===================================================================== *)
(** ** Constants *)
(* ===================================================================== *)

Definition W_DIR : Q := 3 # 10.
Definition W_FILE : Q := 2 # 10.
Definition W_FRAMEWORK : Q := 3 # 10.
Definition W_KEYWORD : Q := 2 # 10.

Definition SOURCE_EXTENSIONS : list string :=
  [".py"; ".go"; ".rs"; ".ts"; ".js"; ".java"; ".kt"; ".swift";
   ".c"; ".cpp"; ".h"; ".gd"; ".dart"].

Definition CACHE_VERSION : Z := 1.

Definition STRUCTURAL_FILES : list string :=
  ["package.json"; "Cargo.toml"; "go.mod"; "pyproject.toml";
   "requirements.txt"; "Gemfile"; "build.gradle"; "build.gradle.kts";
   "project.godot"; "pom.xml"; "CMakeLists.txt"; "Makefile"].

Definition STRUCTURAL_EXTENSIONS : list string :=
  [".gd"; ".tscn"; ".unity"; ".uproject"].

Definition nl : string := String "010" EmptyString.

(** [sep.join(parts)] *)
Fixpoint join (sep : string) (parts : list string) : string :=
  match parts with
  | [] => EmptyString
  | [x] => x
  | x :: rest => x +:+ sep +:+ join sep rest
  end.

(* ===================================================================== *)
(** ** Structural hash *)
(* ===================================================================== *)

Definition ABSENT : string := "__absent__".

(** The per-file entry of [compute_structural_hash]: the digest of the
    bytes of a readable regular file, the sentinel otherwise. *)
Definition file_hash (p : project) (name : string) : string :=
  match child p name with
  | Some (File f) =>
      match read_bytes f with
      | Some content => SHA256.hexdigest content
      | None => ABSENT
      end
  | _ => ABSENT
  end.

Definition structural_parts (p : project) : list string :=
  map (fun name => name +:+ ":" +:+ file_hash p name)
      (Py.sorted STRUCTURAL_FILES).

Definition structural_combined (p : project) : string :=
  join nl (structural_parts p) +:+ nl.

Definition compute_structural_hash (p : project) : string :=
  "sha256:" +:+ SHA256.hexdigest (encode_utf8 (structural_combined p)).




(* ===================================================================== *)
(** ** Sample projects *)
(* ===================================================================== *)

(** No [git] executable answers. *)
Definition no_git : git_env :=
  MkGit ProcUnavailable (fun _ => ProcUnavailable) (fun _ => ProcUnavailable).

Definition text_file (content : string) : node :=
  File (MkFile (Some content) (Some 0%Q)).


Definition empty_project : project := MkProject true [] no_git.


Definition node_project : project :=
  MkProject true
    [("package.json", text_file "{}"); ("index.js", text_file "let a = 1;")]
    no_git.

Definition node_project_edited : project :=
  MkProject true
    [("index.js", text_file "let a = 2;"); ("notes.txt", text_file "todo");
     ("package.json", text_file "{}")]
    no_git.

(* ===================================================================== *)
(** ** Cache store *)
(* ===================================================================== *)

(** The files the cache store touches, by path: the text of a file, or
    [None] for a file that exists but cannot be read. *)
Abbreviation store := (gmap string (option string)).

Definition cache_dict := list (string * pyval).

(** [read_cache]: the parsed mapping, or [None] when the file is absent,
    unreadable, unparseable, not a mapping, or has no truthy [domains]. *)
Definition read_cache `{PyLibs} (fs : store) (path : string)
    : option cache_dict :=
  match fs !! path with
  | None => None
  | Some None => None
  | Some (Some text) =>
      match yaml_safe_load text with
      | Some (PDict data) =>
          if truthy (dict_get data "domains") then Some data else None
      | _ => None
      end
  end.

Definition CACHE_HEADER : string :=
  "# Auto-detected by flux-drive. Edit to override." +:+ nl.

(** The mapping [write_cache] serialises, keys in insertion order. *)
Definition cache_payload (results : pyval) (detected_at : string)
    (structural_hash : option string) : cache_dict :=
  [("cache_version", PInt CACHE_VERSION);
   ("domains", results);
   ("detected_at", PStr detected_at)]
  ++ match structural_hash with
     | Some h => [("structural_hash", PStr h)]
     | None => []
     end.

Definition cache_content `{PyLibs} (results : pyval) (detected_at : string)
    (structural_hash : option string) : string :=
  CACHE_HEADER +:+ yaml_dump (PDict (cache_payload results detected_at structural_hash)).

(** The system call of [write_cache] that raises, if any.  A failing
    [os.write] may have written a prefix of the content. *)
Inductive fault : Type :=
| NoFault
| FailMkdir
| FailMkstemp
| FailWrite (written : nat)
| FailFsync
| FailClose
| FailRename.

(** What [write_cache] is given by its surroundings: the clock reading
    [datetime.now(utc).isoformat()], the name [mkstemp] picks, the call
    that fails, and whether the clean-up [os.unlink] fails too. *)
Record write_env : Type := MkWriteEnv {
  we_now : string;
  we_tmp : string;
  we_fault : fault;
  we_unlink_fails : bool
}.

(** The store after each system call that [write_cache] performs, in
    order, and whether the call ends by raising. *)
Record write_run : Type := MkRun { wr_states : list store; wr_raised : bool }.

Definition cleanup (env : write_env) (fs : store) : store :=
  if we_unlink_fails env then fs else delete (we_tmp env) fs.

Definition write_cache `{PyLibs} (env : write_env) (fs : store) (path : string)
    (results : pyval) (structural_hash : option string) : write_run :=
  let content := cache_content results (we_now env) structural_hash in
  let tmp := we_tmp env in
  match we_fault env with
  | FailMkdir => MkRun [] true
  | FailMkstemp => MkRun [] true
  | f =>
      let s_created : store := <[tmp := Some EmptyString]> fs in
      match f with
      | FailWrite n =>
          let s_partial : store :=
            <[tmp := Some (String.substring 0 n content)]> fs in
          MkRun [s_created; s_partial; cleanup env s_partial] true
      | _ =>
          let s_written : store := <[tmp := Some content]> fs in
          match f with
          | FailFsync | FailClose | FailRename =>
              MkRun [s_created; s_written; cleanup env s_written] true
          | _ =>
              let s_renamed : store :=
                <[path := Some content]> (delete tmp s_written) in
              MkRun [s_created; s_written; s_renamed] false
          end
      end
  end.

(** The store [write_cache] leaves behind. *)
Definition store_after (fs : store) (r : write_run) : store :=
  List.last (wr_states r) fs.

(* ===================================================================== *)
(** ** Staleness detection *)
(* ===================================================================== *)

(** [str(v)] *)
Definition py_str `{PyLibs} (v : pyval) : string :=
  match v with
  | PStr s => s
  | PNone => "None"
  | PBool true => "True"
  | PBool false => "False"
  | POther repr => repr
  | _ => py_repr v
  end.

Definition UTC : option Q := Some 0%Q.

(** [parsed.timestamp()] of an aware value. *)
Definition timestamp (d : datetime) : Q :=
  (dt_wall d - match dt_offset d with Some o => o | None => 0 end)%Q.

Definition _parse_iso_datetime `{PyLibs} (s : string) : option datetime :=
  if String.eqb s "" then None
  else match datetime_fromisoformat s with
       | Some parsed =>
           Some (match dt_offset parsed with
                 | None => MkDatetime (dt_wall parsed) UTC
                 | Some _ => parsed
                 end)
       | None =>
           (* date-only format of v0 caches *)
           match date_fromisoformat s with
           | Some midnight => Some (MkDatetime midnight UTC)
           | None => None
           end
       end.

(** Exit codes of the staleness check. *)
Definition FRESH : Z := 0.
Definition STALE : Z := 3.
Definition NO_CACHE : Z := 4.

Definition is_str (v : pyval) : bool :=
  match v with PStr _ => true | _ => false end.

(** Tier 1: structural hash comparison. *)
Definition _check_stale_tier1 (p : project) (cache : cache_dict) : option Z :=
  let cached_hash := dict_get cache "structural_hash" in
  if negb (truthy cached_hash) || negb (is_str cached_hash) then None
  else
    let current_hash := compute_structural_hash p in
    if String.eqb (match cached_hash with PStr s => s | _ => "" end) current_hash
    then Some FRESH else Some STALE.

Definition tab : ascii := "009"%char.

(** Triggers found in the output of the first [git log] query. *)
Definition change_triggers (stdout : string) : list string :=
  let changed_files :=
    List.filter (fun l => negb (String.eqb l ""))
           (map Py.strip (Py.splitlines stdout)) in
  flat_map (fun f =>
      (if Py.mem (Py.basename f) STRUCTURAL_FILES
       then ["structural file: " +:+ f] else [])
      ++ (if Py.mem (Py.splitext_ext f) STRUCTURAL_EXTENSIONS
          then ["structural extension: " +:+ f] else []))
    changed_files.

(** Triggers found in the output of the rename query. *)
Definition rename_triggers (stdout : string) : list string :=
  flat_map (fun line =>
      match Py.split_on tab (Py.strip line) with
      | _ :: old :: new :: _ =>
          let old_structural := Py.mem (Py.basename old) STRUCTURAL_FILES in
          let new_structural := Py.mem (Py.basename new) STRUCTURAL_FILES in
          if xorb old_structural new_structural
          then ["structural rename: " +:+ old +:+ " -> " +:+ new] else []
      | _ => []
      end)
    (Py.splitlines stdout).

(** Tier 2: git log check. *)
Definition _check_stale_tier2 `{PyLibs} (p : project) (cache : cache_dict)
    : option Z :=
  match child p ".git" with
  | None => None
  | Some _ =>
      let shallow :=
        match git_is_shallow (p_git p) with
        | ProcDone rc out _ => (rc =? 0) && String.eqb (Py.strip out) "true"
        | ProcUnavailable => false
        end in
      if shallow then None
      else
        let detected_at := dict_get_default cache "detected_at" (PStr "") in
        match _parse_iso_datetime (py_str detected_at) with
        | None => Some STALE
        | Some parsed =>
            let since_str := datetime_isoformat parsed in
            match git_log_changes (p_git p) since_str with
            | ProcUnavailable => None
            | ProcDone rc out _ =>
                if negb (rc =? 0) then None
                else
                  let triggers :=
                    change_triggers out
                    ++ match git_log_renames (p_git p) since_str with
                       | ProcDone rc' out' _ =>
                           if rc' =? 0 then rename_triggers out' else []
                       | ProcUnavailable => []
                       end in
                  match triggers with
                  | [] => Some FRESH
                  | _ => Some STALE
                  end
            end
        end
  end.

(** Tier 3: modification times of the structural files. *)
Definition _check_stale_tier3 `{PyLibs} (p : project) (cache : cache_dict) : Z :=
  let detected_at := dict_get_default cache "detected_at" (PStr "") in
  match _parse_iso_datetime (py_str detected_at) with
  | None => STALE
  | Some parsed =>
      let detected_epoch := timestamp parsed in
      if existsb (fun name =>
             match child p name with
             | Some (File f) =>
                 match f_mtime f with
                 | Some m => negb (Qle_bool m detected_epoch)
                 | None => false
                 end
             | _ => false
             end) STRUCTURAL_FILES
      then STALE else FRESH
  end.

(** What a staleness check did to the project besides reading the cache
    file. *)
Inductive probe : Type :=
| DiagnosticHash   (* the hash recomputed for the --dry-run report *)
| RanTier1
| RanTier2
| RanTier3.

Definition is_int (v : pyval) : bool :=
  match v with PInt _ | PBool _ => true | _ => false end.

(** The value of an [int] (a [bool] is an [int]: [True == 1]). *)
Definition int_value (v : pyval) : Z :=
  match v with
  | PInt z => z
  | PBool b => if b then 1 else 0
  | _ => 0
  end.

Definition is_none (v : pyval) : bool :=
  match v with PNone => true | _ => false end.

(** [check_stale]: the exit code and the probes made, in order. *)
Definition check_stale `{PyLibs} (p : project) (fs : store) (cache_path : string)
    (dry_run : bool) : Z * list probe :=
  match read_cache fs cache_path with
  | None => (NO_CACHE, [])
  | Some cache =>
      if truthy (dict_get cache "override") then (FRESH, [])
      else
        let version := dict_get cache "cache_version" in
        if is_none version
           || (is_int version && negb (int_value version =? CACHE_VERSION))
        then (STALE, [])
        else
          let diag := if dry_run then [DiagnosticHash] else [] in
          match _check_stale_tier1 p cache with
          | Some tier1 => (tier1, diag ++ [RanTier1])
          | None =>
              match _check_stale_tier2 p cache with
              | Some tier2 => (tier2, diag ++ [RanTier1; RanTier2])
              | None =>
                  (_check_stale_tier3 p cache,
                   diag ++ [RanTier1; RanTier2; RanTier3])
              end
          end
  end.

(* ===================================================================== *)
(** ** A library instance for worked examples *)
(* ===================================================================== *)

(** A stand-in for the Python libraries, used only to run the model on
    concrete inputs: documents are recognised by looking their text up
    in a table that lists each text beside the value the real loader
    returns for it, and [yaml_dump] prints block style with every string
    quoted. *)
Module Demo.

Definition quote (s : string) : string := "'" +:+ s +:+ "'".

(** A non-negative number with two decimals. *)
Definition dec2 (q : Q) : string :=
  let n := Qfloor (q * 100) in
  pretty.pretty (n / 100) +:+ "." +:+ pretty.pretty ((n / 10) mod 10)
  +:+ pretty.pretty (n mod 10).

Definition scalar (v : pyval) : string :=
  match v with
  | PNone => "null"
  | PBool true => "true"
  | PBool false => "false"
  | PInt z => pretty.pretty z
  | PFloat q => dec2 q
  | PStr s => quote s
  | PList [] => "[]"
  | PDict [] => "{}"
  | POther repr => repr
  | _ => "?"
  end.

Definition item (v : pyval) : string :=
  match v with
  | PDict ((k, x) :: rest) =>
      "- " +:+ k +:+ ": " +:+ scalar x +:+ nl
      +:+ String.concat ""
            (map (fun kv => "  " +:+ fst kv +:+ ": " +:+ scalar (snd kv) +:+ nl) rest)
  | _ => "- " +:+ scalar v +:+ nl
  end.

Definition entry (kv : string * pyval) : string :=
  match snd kv with
  | PList (x :: l) =>
      fst kv +:+ ":" +:+ nl +:+ String.concat "" (map item (x :: l))
  | v => fst kv +:+ ": " +:+ scalar v +:+ nl
  end.

Definition dump (v : pyval) : string :=
  match v with
  | PDict (kv :: d) => String.concat "" (map entry (kv :: d))
  | _ => scalar v +:+ nl
  end.

(** Drops leading comment lines. *)
Fixpoint after_line (s : string) : string :=
  match s with
  | EmptyString => EmptyString
  | String c s' => if Ascii.eqb c "010" then s' else after_line s'
  end.

Definition body (text : string) : string :=
  if Py.startswith "#" text then after_line text else text.

Definition web_api : pyval :=
  PDict [("name", PStr "web-api"); ("confidence", PFloat (3 # 10));
         ("primary", PBool true)].

Definition EMPTY_HASH : string :=
  "sha256:ab2e7bf8ca86ea6838868822397df882d64d74220ab2d80c25a7b6a56ba2d1ae".

Definition NOON : string := "2026-01-01T12:00:00+00:00".

Definition line (s : string) : string := s +:+ nl.

(** YAML texts and what [yaml.safe_load] makes of them. *)
Definition yaml_documents : list (string * pyval) :=
  [ (* a cache as [write_cache] prints it *)
    (line "cache_version: 1" +:+ line "domains:"
     +:+ line "- name: 'web-api'" +:+ line "  confidence: 0.30"
     +:+ line "  primary: true"
     +:+ line "detected_at: '2026-01-01T12:00:00+00:00'"
     +:+ line ("structural_hash: '" +:+ EMPTY_HASH +:+ "'"),
     PDict (cache_payload (PList [web_api]) NOON (Some EMPTY_HASH)));
    (* the same with no detected domain *)
    (line "cache_version: 1" +:+ line "domains: []"
     +:+ line "detected_at: '2026-01-01T12:00:00+00:00'",
     PDict (cache_payload (PList []) NOON None));
    (* a quoted, hence textual, version number *)
    (line "cache_version: '2'" +:+ line "domains:"
     +:+ line "- name: web-api" +:+ line "  confidence: 0.3"
     +:+ line ("structural_hash: " +:+ EMPTY_HASH),
     PDict [("cache_version", PStr "2"); ("domains", PList [web_api]);
            ("structural_hash", PStr EMPTY_HASH)]);
    (* an older format *)
    (line "cache_version: 0" +:+ line "domains:"
     +:+ line "- name: web-api" +:+ line "  confidence: 0.3"
     +:+ line ("structural_hash: " +:+ EMPTY_HASH),
     PDict [("cache_version", PInt 0); ("domains", PList [web_api]);
            ("structural_hash", PStr EMPTY_HASH)]);
    (* a user override over a foreign version and a stale hash *)
    (line "override: true" +:+ line "cache_version: 7" +:+ line "domains:"
     +:+ line "- name: web-api" +:+ line "  confidence: 0.3"
     +:+ line "structural_hash: sha256:0000",
     PDict [("override", PBool true); ("cache_version", PInt 7);
            ("domains", PList [web_api]);
            ("structural_hash", PStr "sha256:0000")]);
    (* a mapping whose domains list is empty *)
    (line "cache_version: 1" +:+ line "domains: []"
     +:+ line "override: true",
     PDict [("cache_version", PInt 1); ("domains", PList []);
            ("override", PBool true)]) ].

Definition load (table : list (string * pyval)) (text : string)
    : option pyval :=
  assoc (body text) table.

(** A JSON string literal. *)
Definition jstr (s : string) : string :=
  String "034" EmptyString +:+ s +:+ String "034" EmptyString.

(** A [package.json] that names its dependency with a capital. *)
Definition REACT_MANIFEST : string :=
  "{" +:+ jstr "dependencies" +:+ ": {" +:+ jstr "React" +:+ ": "
  +:+ jstr "^18.2.0" +:+ "}}".

(** JSON texts and what [json.loads] makes of them. *)
Definition json_documents : list (string * pyval) :=
  [ ("{}", PDict []);
    (REACT_MANIFEST,
     PDict [("dependencies", PDict [("React", PStr "^18.2.0")])]) ].

(** [fnmatch] restricted to literal characters, [?] and [*]. *)
Fixpoint glob (fuel : nat) (name pat : string) : bool :=
  match fuel with
  | O => false
  | S fuel' =>
      match pat, name with
      | EmptyString, EmptyString => true
      | EmptyString, String _ _ => false
      | String "*" pat', EmptyString => glob fuel' EmptyString pat'
      | String "*" pat', String _ name' =>
          glob fuel' name pat' || glob fuel' name' pat
      | String _ _, EmptyString => false
      | String p pat', String c name' =>
          (Ascii.eqb p "?" || Ascii.eqb p c) && glob fuel' name' pat'
      end
  end.

Definition noon : datetime := MkDatetime 1767268800 (Some 0%Q).

#[export] Instance libs : PyLibs := {|
  yaml_safe_load := load yaml_documents;
  yaml_dump := dump;
  json_loads := load json_documents;
  tomllib_loads := load [];
  fnmatch := fun name pat =>
    glob (String.length name + String.length pat + 1) name pat;
  py_repr := scalar;
  datetime_fromisoformat := fun s =>
    if String.eqb s NOON then Some noon else None;
  date_fromisoformat := fun s =>
    if String.eqb s "2026-01-01" then Some 1767225600%Q else None;
  datetime_isoformat := fun _ => NOON;
  re_require_blocks := fun _ => [];
  re_require_lines := fun _ => []
|}.

End Demo.


Definition demo_env (f : fault) : write_env :=
  MkWriteEnv Demo.NOON ".claude/tmpk3x9.tmp" f false.


(* ===================================================================== *)
(** ** Signal gatherers *)
(* ===================================================================== *)

(** [matches / len(signals)] *)
Definition ratio (matches total : nat) : Q :=
  Z.of_nat matches # Pos.of_nat total.

Definition count_matches (f : string -> bool) (signals : list string) : nat :=
  List.length (List.filter f signals).

(** The project root as a directory node. *)
Definition root (p : project) : node := Dir (p_listable p) (p_entries p).

(** [(project / sig)]: the components of [sig] followed from the root;
    empty and [.] components are skipped as [pathlib] does.  Signals are
    taken relative to the project: [..] and absolute paths are not
    followed. *)
Fixpoint walk (parts : list string) (n : node) : option node :=
  match parts with
  | [] => Some n
  | part :: rest =>
      if String.eqb part "" || String.eqb part "." then walk rest n
      else match n with
           | Dir _ entries =>
               match assoc part entries with
               | Some c => walk rest c
               | None => None
               end
           | File _ => None
           end
  end.

Definition dir_names (entries : list (string * node)) : list string :=
  map fst (List.filter (fun e => is_dir_node (Some (snd e))) entries).

Definition file_names (entries : list (string * node)) : list string :=
  map fst (List.filter (fun e => is_file_node (Some (snd e))) entries).

Definition gather_directories (p : project) (signals : list string) : Q :=
  match signals with
  | [] => 0
  | _ =>
      if negb (p_listable p) then 0
      else
        let existing := dir_names (p_entries p) in
        ratio (count_matches (fun sig =>
                 if Py.contains_char "/" sig
                 then is_dir_node (walk (Py.split_on "/" sig) (root p))
                 else Py.mem sig existing) signals)
              (List.length signals)
  end.

(** File names of the root and of its non-hidden sub-directories that
    can be listed. *)
Definition shallow_file_names (p : project) : list string :=
  flat_map (fun e =>
      match snd e with
      | File _ => [fst e]
      | Dir listable children =>
          if negb (Py.startswith "." (fst e)) && listable
          then file_names children else []
      end) (p_entries p).

Definition gather_files `{PyLibs} (p : project) (signals : list string) : Q :=
  match signals with
  | [] => 0
  | _ =>
      if negb (p_listable p) then 0
      else
        let filenames := shallow_file_names p in
        ratio (count_matches (fun sig =>
                 existsb (fun f => fnmatch f sig) filenames) signals)
              (List.length signals)
  end.

(** [path.read_text()] of a root entry known to exist: [None] when it
    raises (a directory, or a file that cannot be read). *)
Definition read_text (n : node) : option string :=
  match n with
  | File f => f_content f
  | Dir _ _ => None
  end.

(** [v.get(k, dflt)]: [None] when [v] has no [get] (not a mapping). *)
Definition py_get (v : pyval) (k : string) (dflt : pyval) : option pyval :=
  match v with
  | PDict d => Some (dict_get_default d k dflt)
  | _ => None
  end.

Definition dict_keys (v : pyval) : list string :=
  match v with PDict d => map fst d | _ => [] end.

(** The keys of the mapping-valued sections named by [keys]. *)
Definition section_keys (data : pyval) (keys : list string)
    : option (list string) :=
  match data with
  | PDict d =>
      Some (flat_map (fun k => dict_keys (dict_get_default d k (PDict []))) keys)
  | _ => None
  end.

(** A dependency set is a list here; only membership is ever asked. *)
Definition or_empty (r : option (list string)) : list string :=
  match r with Some l => l | None => [] end.

Definition _parse_package_json_deps `{PyLibs} (p : project) : list string :=
  match child p "package.json" with
  | None => []
  | Some n =>
      or_empty (text ← read_text n;
                data ← json_loads text;
                section_keys data ["dependencies"; "devDependencies"])
  end.

Definition _parse_cargo_toml_deps `{PyLibs} (p : project) : list string :=
  match child p "Cargo.toml" with
  | None => []
  | Some n =>
      or_empty (text ← read_text n;
                data ← tomllib_loads text;
                section_keys data
                  ["dependencies"; "dev-dependencies"; "build-dependencies"])
  end.

(** [path.split("/")[-1].lower()] *)
Definition last_segment_lower (path : string) : string :=
  Py.lower (List.last (Py.split_on "/" path) EmptyString).

Definition _parse_go_mod_deps `{PyLibs} (p : project) : list string :=
  match child p "go.mod" with
  | None => []
  | Some n =>
      match read_text n with
      | None => []
      | Some text =>
          flat_map (fun block =>
              flat_map (fun line =>
                  match Py.split_ws (Py.strip line) with
                  | first :: _ =>
                      if Py.startswith "//" first then []
                      else [last_segment_lower first]
                  | [] => []
                  end)
                (Py.splitlines (Py.strip block)))
            (re_require_blocks text)
          ++ map last_segment_lower (re_require_lines text)
      end
  end.

(** The package name at the head of a requirement specifier. *)
Definition requirement_name (spec : string) : string :=
  Py.lower (Py.strip (Py.before_specifier spec)).

Definition nonempty (s : string) : bool := negb (String.eqb s "").

(** What [for dep in v] yields, [None] where it raises [TypeError]. *)
Definition py_iter (v : pyval) : option (list pyval) :=
  match v with
  | PList l => Some l
  | PStr s => Some (map (fun c => PStr (String c EmptyString)) (list_ascii_of_string s))
  | PDict d => Some (map (fun kv => PStr (fst kv)) d)
  | _ => None
  end.

(** The names of PEP 621 dependencies; [re.split] raises on a value
    that is not a string. *)
Fixpoint pep621_names (deps : list pyval) : option (list string) :=
  match deps with
  | [] => Some []
  | PStr dep :: rest =>
      names ← pep621_names rest;
      let name := requirement_name dep in
      Some (if nonempty name then name :: names else names)
  | _ :: _ => None
  end.

Definition _parse_pyproject_deps `{PyLibs} (p : project) : list string :=
  match child p "pyproject.toml" with
  | None => []
  | Some n =>
      or_empty (text ← read_text n;
                data ← tomllib_loads text;
                project_table ← py_get data "project" (PDict []);
                declared ← py_get project_table "dependencies" (PList []);
                deps ← py_iter declared;
                names ← pep621_names deps;
                tool ← py_get data "tool" (PDict []);
                poetry ← py_get tool "poetry" (PDict []);
                section ← py_get poetry "dependencies" (PDict []);
                Some (names ++
                      List.filter (fun k => negb (String.eqb k "python"))
                             (map Py.lower (dict_keys section))))
  end.

Definition _parse_requirements_txt (p : project) : list string :=
  match child p "requirements.txt" with
  | None => []
  | Some n =>
      match read_text n with
      | None => []
      | Some text =>
          flat_map (fun raw =>
              let line := Py.strip raw in
              if nonempty line
                 && negb (Py.startswith "#" line || Py.startswith "-" line)
              then let name := requirement_name line in
                   if nonempty name then [name] else []
              else [])
            (Py.splitlines text)
      end
  end.

(** [d.replace("-", "").replace("_", "")] *)
Definition strip_separators (d : string) : string :=
  Py.remove_char "_" (Py.remove_char "-" d).

Definition all_deps `{PyLibs} (p : project) : list string :=
  _parse_package_json_deps p ++ _parse_cargo_toml_deps p
  ++ _parse_go_mod_deps p ++ _parse_pyproject_deps p
  ++ _parse_requirements_txt p.

Definition gather_frameworks `{PyLibs} (p : project) (signals : list string) : Q :=
  match signals with
  | [] => 0
  | _ =>
      let normalised := map strip_separators (all_deps p) in
      ratio (count_matches (fun sig =>
               Py.mem (strip_separators sig) normalised) signals)
            (List.length signals)
  end.

(** [sorted(dir.iterdir())]: the entries by name. *)
Fixpoint insert_entry (e : string * node) (l : list (string * node))
    : list (string * node) :=
  match l with
  | [] => [e]
  | y :: l' => if String.leb (fst e) (fst y) then e :: l else y :: insert_entry e l'
  end.

Definition sorted_entries (l : list (string * node)) : list (string * node) :=
  fold_right insert_entry [] l.

Definition has_source_suffix (name : string) : bool :=
  Py.mem (Py.suffix name) SOURCE_EXTENSIONS.

(** The inner loop of [gather_keywords]: source files of one
    sub-directory, stopping once [cap] files are collected. *)
Fixpoint collect_children (cap : nat) (children : list (string * node))
    (acc : list file) : list file :=
  match children with
  | [] => acc
  | (name, File f) :: rest =>
      if has_source_suffix name
      then let acc' := acc ++ [f] in
           if (cap <=? List.length acc')%nat then acc'
           else collect_children cap rest acc'
      else collect_children cap rest acc
  | (_, Dir _ _) :: rest => collect_children cap rest acc
  end.

(** The outer loop: root entries in name order. *)
Fixpoint collect_sources (cap : nat) (entries : list (string * node))
    (acc : list file) : list file :=
  match entries with
  | [] => acc
  | (name, n) :: rest =>
      let acc' :=
        match n with
        | File f => if has_source_suffix name then acc ++ [f] else acc
        | Dir listable children =>
            if negb (Py.startswith "." name) && listable
            then collect_children cap (sorted_entries children) acc
            else acc
        end in
      if (cap <=? List.length acc')%nat then acc'
      else collect_sources cap rest acc'
  end.

(** The text searched for keywords: each readable file followed by a
    line feed. *)
Definition combined_text (files : list file) : string :=
  String.concat ""
    (flat_map (fun f => match f_content f with
                        | Some text => [text +:+ nl]
                        | None => []
                        end) files).

Definition gather_keywords (p : project) (signals : list string)
    (limit : nat) : Q :=
  match signals with
  | [] => 0
  | _ =>
      if negb (p_listable p) then 0
      else
        let source_files :=
          firstn limit
            (collect_sources (limit * 3) (sorted_entries (p_entries p)) []) in
        match source_files with
        | [] => 0
        | _ =>
            let combined := combined_text source_files in
            if String.eqb combined "" then 0
            else
              let combined_lower := Py.lower combined in
              ratio (count_matches (fun kw =>
                       Py.is_substring (Py.lower kw) combined_lower) signals)
                    (List.length signals)
        end
  end.

(* ===================================================================== *)
(** ** Scoring and detection *)
(* ===================================================================== *)

Local Open Scope Q_scope.

Definition score_domain (dir_score file_score fw_score kw_score : Q) : Q :=
  dir_score * W_DIR + file_score * W_FILE + fw_score * W_FRAMEWORK
  + kw_score * W_KEYWORD.

(** Parsed domain entry of the index. *)
Record DomainSpec : Type := MkSpec {
  profile : string;
  min_confidence : Q;
  directories : list string;
  files : list string;
  frameworks : list string;
  keywords : list string
}.

(** One detected domain; [primary] stands for the key being present. *)
Record result : Type := MkResult {
  r_name : string;
  r_confidence : Q;
  r_primary : bool
}.

(** [round(x, 2)]: to the nearest hundredth, ties to the even one. *)
Definition round2 (x : Q) : Q :=
  let n := x * 100 in
  let f := Qfloor n in
  let r := n - inject_Z f in
  let up :=
    match r ?= 1 # 2 with
    | Lt => false
    | Gt => true
    | Eq => Z.odd f
    end in
  (if up then f + 1 else f)%Z # 100.

Definition DEFAULT_LIMIT : nat := 5.

(** The confidence [detect] computes for one domain. *)
Definition confidence `{PyLibs} (p : project) (spec : DomainSpec)
    (skip_keywords_threshold : bool) : Q :=
  let d := gather_directories p (directories spec) in
  let f := gather_files p (files spec) in
  let fw := gather_frameworks p (frameworks spec) in
  let preliminary := d * W_DIR + f * W_FILE + fw * W_FRAMEWORK in
  if skip_keywords_threshold && Qle_bool (min_confidence spec) preliminary
  then preliminary
  else score_domain d f fw (gather_keywords p (keywords spec) DEFAULT_LIMIT).

(** Stable sort, highest confidence first
    ([results.sort(key=..., reverse=True)]). *)
Fixpoint insert_desc (x : result) (l : list result) : list result :=
  match l with
  | [] => [x]
  | y :: l' =>
      if Qle_bool (r_confidence y) (r_confidence x) then x :: l
      else y :: insert_desc x l'
  end.

Definition sort_desc (l : list result) : list result :=
  fold_right insert_desc [] l.

Definition mark_primary (l : list result) : list result :=
  match l with
  | [] => []
  | r :: rest => MkResult (r_name r) (r_confidence r) true :: rest
  end.

Definition detect `{PyLibs} (p : project) (domains : list DomainSpec)
    (skip_keywords_threshold : bool) : list result :=
  let results :=
    flat_map (fun spec =>
        let c := confidence p spec skip_keywords_threshold in
        if Qle_bool (min_confidence spec) c
        then [MkResult (profile spec) (round2 c) false] else [])
      domains in
  mark_primary (sort_desc results).

(** The order of a result list: no later entry is more confident. *)
Definition by_confidence_desc (a b : result) : Prop :=
  r_confidence b <= r_confidence a.

(** The domains that pass their threshold, in index order. *)
Definition passing `{PyLibs} (p : project) (domains : list DomainSpec)
    (skip : bool) : list DomainSpec :=
  List.filter (fun spec =>
      Qle_bool (min_confidence spec) (confidence p spec skip)) domains.

Local Close Scope Q_scope.

(** The result list as the value that is cached and printed. *)
Definition result_value (r : result) : pyval :=
  PDict ([("name", PStr (r_name r)); ("confidence", PFloat (r_confidence r))]
         ++ if r_primary r then [("primary", PBool true)] else []).

Definition results_value (l : list result) : pyval := PList (map result_value l).

(* ===================================================================== *)
(** ** Command line driver *)
(* ===================================================================== *)

(** The domain index on disk: missing, such that [load_index] raises,
    or loaded. *)
Inductive index_state : Type :=
| IndexMissing
| IndexInvalid
| IndexLoaded (domains : list DomainSpec).

(** The parsed command line and what [main] finds around it.  The
    [--json] flag only chooses how the printed mapping is serialised. *)
Record invocation : Type := MkInvocation {
  project_is_dir : bool;
  index : index_state;
  cache_path : string;
  no_cache : bool;
  check_stale_flag : bool;
  dry_run_flag : bool;
  write_environment : write_env;
  (** the second clock reading, for the printed [detected_at] *)
  printed_now : string
}.

Record outcome : Type := MkOutcome {
  exit_code : Z;
  printed : option pyval;
  store_out : store
}.

(** What a cache hit prints. *)
Definition cached_output (cached : cache_dict) : pyval :=
  PDict [("domains", dict_get cached "domains");
         ("detected_at", dict_get_default cached "detected_at" (PStr ""))].

(** [main], with the [except Exception] wrapper of the script turning
    every raise into exit code 2. *)
Definition main `{PyLibs} (inv : invocation) (p : project) (fs : store)
    : outcome :=
  if negb (project_is_dir inv) then MkOutcome 2 None fs
  else if check_stale_flag inv
  then MkOutcome (fst (check_stale p fs (cache_path inv) (dry_run_flag inv)))
                 None fs
  else
    match index inv with
    | IndexMissing => MkOutcome 2 None fs
    | idx =>
        let cached := read_cache fs (cache_path inv) in
        let hit :=
          match cached with
          | Some c =>
              if negb (no_cache inv) then Some c
              else if truthy (dict_get c "override") then Some c else None
          | None => None
          end in
        match hit with
        | Some c => MkOutcome 0 (Some (cached_output c)) fs
        | None =>
            match idx with
            | IndexLoaded domains =>
                match detect p domains true with
                | [] => MkOutcome 1 None fs
                | results =>
                    let run :=
                      write_cache (write_environment inv) fs (cache_path inv)
                        (results_value results)
                        (Some (compute_structural_hash p)) in
                    if wr_raised run
                    then MkOutcome 2 None (store_after fs run)
                    else MkOutcome 0
                           (Some (PDict [("domains", results_value results);
                                         ("detected_at", PStr (printed_now inv))]))
                           (store_after fs run)
                end
            | _ => MkOutcome 2 None fs
            end
        end
    end.

(* ===================================================================== *)
(** ** Cache files used in the worked examples *)
(* ===================================================================== *)




(** A cache whose [domains] list is empty, with an override on top. *)
Definition empty_domains_text : string :=
  "cache_version: 1" +:+ nl +:+ "domains: []" +:+ nl
  +:+ "override: true" +:+ nl.

Definition empty_domains_store : store :=
  {[ "cache.yaml" := Some empty_domains_text ]}.

(* ===================================================================== *)
(** ** Projects and runs used in the worked examples *)
(* ===================================================================== *)

(** A Python project that pins Django by its usual capitalised name. *)
Definition django_project : project :=
  MkProject true
    [("requirements.txt", text_file ("Django==4.2" +:+ nl +:+ "gunicorn" +:+ nl))]
    no_git.

(** A project whose only manifest is a [package.json] with [text]. *)
Definition package_json_project (text : string) : project :=
  MkProject true [("package.json", text_file text)] no_git.

(** A domain of the index that asks for a [src] directory. *)
Definition web_api_spec : DomainSpec :=
  MkSpec "web-api" (3 # 10) ["src"] [] ["react"] ["router"].

Definition src_project : project :=
  MkProject true [("src", Dir true [("app.py", text_file "import os")])] no_git.

(** A plain run: no [--check-stale], no [--no-cache]. *)
Definition plain_run (domains : list DomainSpec) : invocation :=
  MkInvocation true (IndexLoaded domains) "cache.yaml" false false false
    (demo_env NoFault) Demo.NOON.

(** The cache a run at noon writes for an empty project. *)
Definition written_cache_store : store :=
  {[ "cache.yaml" :=
       Some (@cache_content Demo.libs (PList [Demo.web_api]) Demo.NOON
               (Some Demo.EMPTY_HASH)) ]}.

(** A project with a build file added after that run. *)
Definition makefile_project : project :=
  MkProject true [("Makefile", text_file ("all:" +:+ nl))] no_git.

(** The example library with further YAML documents put in front of its
    table. *)
Definition demo_with (documents : list (string * pyval)) : PyLibs := {|
  yaml_safe_load := Demo.load (documents ++ Demo.yaml_documents);
  yaml_dump := Demo.dump;
  json_loads := @json_loads Demo.libs;
  tomllib_loads := @tomllib_loads Demo.libs;
  fnmatch := @fnmatch Demo.libs;
  py_repr := Demo.scalar;
  datetime_fromisoformat := @datetime_fromisoformat Demo.libs;
  date_fromisoformat := @date_fromisoformat Demo.libs;
  datetime_isoformat := @datetime_isoformat Demo.libs;
  re_require_blocks := @re_require_blocks Demo.libs;
  re_require_lines := @re_require_lines Demo.libs
|}.

(** A cache from before hashes and time stamps were recorded. *)
Definition bare_cache_text : string :=
  "cache_version: 1" +:+ nl +:+ "domains:" +:+ nl +:+ "- name: web-api" +:+ nl.

Definition bare_cache : cache_dict :=
  [("cache_version", PInt 1);
   ("domains", PList [PDict [("name", PStr "web-api")]])].

Definition bare_libs : PyLibs := demo_with [(bare_cache_text, PDict bare_cache)].

Definition bare_cache_store : store := {[ "cache.yaml" := Some bare_cache_text ]}.

(** A git work tree whose history reports a changed build file. *)
Definition git_project : project :=
  MkProject true
    [(".git", Dir true []); ("Makefile", text_file ("all:" +:+ nl))]
    (MkGit (ProcDone 0 ("false" +:+ nl) "")
           (fun _ => ProcDone 0 ("Makefile" +:+ nl) "")
           (fun _ => ProcDone 0 "" "")).

(** The store around a cache file: another file next to it. *)
Definition busy_store : store :=
  {[ "cache.yaml" := Some "cache_version: 1"; "notes.txt" := Some "keep" ]}.

(** What a first run on [src_project] detects and caches. *)
Definition src_results : list result := [MkResult "web-api" (30 # 100) true].

Definition src_payload : cache_dict :=
  cache_payload (results_value src_results) Demo.NOON (Some Demo.EMPTY_HASH).

(** The example library, told how the cache of that run reads back. *)
Definition src_libs : PyLibs :=
  demo_with [(Demo.dump (PDict src_payload), PDict src_payload)].


(** A project that pins a dependency spelled with a hyphen, after a
    comment and an option line. *)
Definition sklearn_project : project :=
  MkProject true
    [("requirements.txt",
      text_file ("# pinned" +:+ nl +:+ "-r base.txt" +:+ nl
                 +:+ "Scikit-Learn>=1.0" +:+ nl))]
    no_git.

(** A project with a hidden directory beside its sources. *)
Definition hidden_dir_project (git : git_env) : project :=
  MkProject true
    ([("src", Dir true [("main.py", text_file "import os")])]
     ++ (".venv", Dir true [("Dockerfile", text_file "FROM scratch")])
     :: [("Makefile", text_file ("all:" +:+ nl))])
    git.

(** A root directory that cannot be listed. *)
Definition locked_project : project :=
  MkProject false
    [("src", Dir true []);
     ("requirements.txt", text_file ("react" +:+ nl))]
    no_git.

(* ===================================================================== *)
(** ** The content hash ([scripts/content-hash.py]) *)
(* ===================================================================== *)

Module ContentHash.

Definition README_NAMES : list string :=
  ["README.md"; "README.rst"; "README.txt"; "README"].

Definition BUILD_FILES : list string :=
  ["package.json"; "go.mod"; "Cargo.toml"; "pyproject.toml"; "build.gradle";
   "pom.xml"; "Makefile"; "CMakeLists.txt"].

Definition SOURCE_DIRS : list string := ["src"; "lib"].

Definition SOURCE_EXTENSIONS : list string :=
  [".py"; ".go"; ".rs"; ".ts"; ".js"; ".jsx"; ".tsx"; ".java"; ".kt";
   ".swift"; ".c"; ".cpp"; ".h"; ".hpp"; ".rb"; ".cs"; ".dart"; ".gd";
   ".lua"; ".zig"].

Definition MAX_SOURCE_FILES : nat := 3.
Definition MAX_FILE_SIZE : N := 1048576.
Definition BINARY_CHECK_SIZE : nat := 512.

Definition NUL : ascii := "000"%char.

(** [_is_binary]: [stat] failing, the size limit, [open]/[read] failing
    and a null byte in the first 512 bytes all answer [True]. *)
Definition _is_binary (f : file) : bool :=
  match f_mtime f, f_content f with
  | Some _, Some content =>
      (MAX_FILE_SIZE <? N.of_nat (String.length content))%N
      || Py.contains_char NUL (String.substring 0 BINARY_CHECK_SIZE content)
  | _, _ => true
  end.

(** [candidate.is_file() and not _is_binary(candidate)] *)
Definition is_text_file (n : option node) : bool :=
  match n with
  | Some (File f) => negb (_is_binary f)
  | _ => false
  end.

(** Paths are kept relative to the project root, beside the file
    they name. *)
Definition found : Type := string * node.

Fixpoint first_text_file (p : project) (names : list string) : option found :=
  match names with
  | [] => None
  | name :: names' =>
      match child p name with
      | Some n =>
          if is_text_file (Some n) then Some (name, n)
          else first_text_file p names'
      | None => first_text_file p names'
      end
  end.

Definition _find_readme (p : project) : option found :=
  first_text_file p README_NAMES.

Definition _find_build_files (p : project) : list found :=
  flat_map (fun name =>
      match child p name with
      | Some n => if is_text_file (Some n) then [(name, n)] else []
      | None => []
      end) BUILD_FILES.

(** [dir.rglob("*")] with paths that start with [prefix]: the entries
    of the directory, then those of each sub-directory in turn, as
    pathlib of CPython 3.11 and 3.12 walks; a directory that may not be
    listed contributes nothing. *)
Fixpoint rglob (prefix : string) (n : node) {struct n} : list found :=
  match n with
  | File _ => []
  | Dir false _ => []
  | Dir true entries =>
      map (fun e => (prefix +:+ fst e, snd e)) entries
      ++ (fix below (l : list (string * node)) : list found :=
            match l with
            | [] => []
            | (name, sub) :: l' =>
                rglob (prefix +:+ name +:+ "/") sub ++ below l'
            end) entries
  end.

Definition is_candidate (e : found) : bool :=
  match snd e with
  | File f =>
      Py.mem (Py.suffix (Py.basename (fst e))) SOURCE_EXTENSIONS
      && negb (_is_binary f)
  | Dir _ _ => false
  end.

(** The candidates found under [SOURCE_DIRS]. *)
Definition source_dir_candidates (p : project) : list found :=
  flat_map (fun dirname =>
      match child p dirname with
      | Some (Dir listable entries) =>
          List.filter is_candidate
            (rglob (dirname +:+ "/") (Dir listable entries))
      | _ => []
      end) SOURCE_DIRS.

(** The fallback: the files of the root itself. *)
Definition root_candidates (p : project) : list found :=
  if p_listable p then List.filter is_candidate (p_entries p) else [].

Definition suffix_of (e : found) : string := Py.suffix (Py.basename (fst e)).

Definition count_suffix (ext : string) (l : list found) : nat :=
  List.length (List.filter (fun e => String.eqb (suffix_of e) ext) l).

(** [Counter(...).most_common(1)[0][0]]: the most frequent suffix, the
    one met first among equally frequent ones. *)
Fixpoint most_common (all rest : list found) (best : string) : string :=
  match rest with
  | [] => best
  | e :: rest' =>
      most_common all rest'
        (if (count_suffix best all <? count_suffix (suffix_of e) all)%nat
         then suffix_of e else best)
  end.

Definition _find_key_source_files (p : project) : list found :=
  let candidates :=
    match source_dir_candidates p with
    | [] => root_candidates p
    | l => l
    end in
  match candidates with
  | [] => []
  | first :: _ =>
      let dominant_ext := most_common candidates candidates (suffix_of first) in
      firstn MAX_SOURCE_FILES
        (sorted_entries
           (List.filter (fun e => String.eqb (suffix_of e) dominant_ext)
              candidates))
  end.

(** The de-duplication loop of [discover_files]. *)
Fixpoint unique (seen : list string) (files : list found) : list found :=
  match files with
  | [] => []
  | f :: files' =>
      if Py.mem (fst f) seen then unique seen files'
      else f :: unique (fst f :: seen) files'
  end.

Definition discover_files (p : project) : list found :=
  let files :=
    match _find_readme p with Some readme => [readme] | None => [] end
    ++ _find_build_files p ++ _find_key_source_files p in
  sorted_entries (unique [] files).

(** The bytes fed to the hash for the files from index [i] on. *)
Fixpoint hashed_bytes (i : nat) (files : list found) : list Byte.byte :=
  match files with
  | [] => []
  | (rel_path, n) :: files' =>
      match read_text n with
      | None => hashed_bytes (S i) files'
      | Some content =>
          (match i with O => [] | S _ => [Byte.x00] end)
          ++ encode_utf8 rel_path ++ [Byte.x00] ++ list_byte_of_string content
          ++ hashed_bytes (S i) files'
      end
  end.

Definition compute_hash (files : list found) : string :=
  "sha256:" +:+ SHA256.hexdigest (hashed_bytes 0 files).

(** The layout the docstring of [compute_hash] gives for the hashed
    bytes: [<relative_path>\0<content>\0<relative_path>\0<content>...],
    one record per file, a null byte between records. *)
Definition file_record (rel_path content : string) : list Byte.byte :=
  encode_utf8 rel_path ++ [Byte.x00] ++ list_byte_of_string content.

Fixpoint documented_layout (records : list (list Byte.byte)) : list Byte.byte :=
  match records with
  | [] => []
  | [r] => r
  | r :: records' => r ++ [Byte.x00] ++ documented_layout records'
  end.

Definition content_of (e : found) : string :=
  match read_text (snd e) with Some content => content | None => "" end.

(** The command line: whether the project path is a directory,
    [--json] and [--check HASH]. *)
Record arguments : Type := MkArguments {
  project_is_dir : bool;
  json_output : bool;
  check : option string
}.

(** What is printed on standard output: a line of text or the value
    given to [json.dumps]. *)
Inductive output : Type :=
| Line (text : string)
| Json (value : pyval).

Definition paths_value (files : list found) : pyval :=
  PList (map (fun f => PStr (fst f)) files).

Definition main (args : arguments) (p : project) : Z * option output :=
  if negb (project_is_dir args) then (2, None)
  else
    let files := discover_files p in
    match files with
    | [] =>
        (1, if json_output args
            then Some (Json (PDict [("error", PStr "no hashable files found");
                                    ("files", PList [])]))
            else None)
    | _ =>
        let rel_paths := paths_value files in
        let content_hash := compute_hash files in
        match check args with
        | Some expected =>
            if String.eqb content_hash expected
            then (0, if json_output args
                     then Some (Json (PDict [("match", PBool true);
                                             ("hash", PStr content_hash);
                                             ("files", rel_paths)]))
                     else None)
            else (1, if json_output args
                     then Some (Json (PDict [("match", PBool false);
                                             ("expected", PStr expected);
                                             ("actual", PStr content_hash);
                                             ("files", rel_paths)]))
                     else None)
        | None =>
            (0, Some (if json_output args
                      then Json (PDict [("hash", PStr content_hash);
                                        ("files", rel_paths)])
                      else Line content_hash))
        end
    end.

End ContentHash.

(** A small Python project with a README, a build file and sources. *)
Definition python_tree : project :=
  MkProject true
    [("README.md", text_file ("# demo" +:+ nl));
     ("Makefile", text_file ("all:" +:+ nl));
     ("setup.py", text_file "import setuptools");
     ("src",
      Dir true
        [("b.py", text_file "B = 2");
         ("pkg", Dir true [("c.py", text_file "C = 3");
                           ("d.py", text_file "D = 4")]);
         ("a.py", text_file "A = 1");
         ("blob.py", text_file (String "000" "binary"));
         ("index.js", text_file "let x")])]
    no_git.

(** The order of a path-sorted file list. *)
Definition by_path (a b : string * node) : Prop :=
  String.leb (fst a) (fst b) = true.

(** A file that [content-hash.py] accepts: regular, readable, within
    the size limit and without a null byte near its start. *)
Definition text_entry (e : string * node) : Prop :=
  exists f content,
    snd e = File f /\ f_content f = Some content
    /\ ContentHash._is_binary f = false.

(* ===================================================================== *)
(** * Properties *)
(* ===================================================================== *)

(** ** Checks of the library models on known values *)

Example sha256_constants :
  List.length SHA256.K = 64%nat
  /\ nth 0 SHA256.K 0 = 0x428a2f98
  /\ nth 63 SHA256.K 0 = 0xc67178f2
  /\ SHA256.sa SHA256.H0 = 0x6a09e667
  /\ SHA256.sh SHA256.H0 = 0x5be0cd19.
Proof. repeat split. Qed.

Example sha256_empty :
  SHA256.hexdigest [] =
  "e3b0c44298fc1c149afbf4c8996fb92427ae41e4649b934ca495991b7852b855".
Proof. vm_compute. reflexivity. Qed.

Example sha256_abc :
  SHA256.hexdigest (encode_utf8 "abc") =
  "ba7816bf8f01cfea414140de5dae2223b00361a396177a9cb410ff61f20015ad".
Proof. vm_compute. reflexivity. Qed.

Example py_suffix_examples :
  map Py.suffix ["main.py"; ".bashrc"; "a.tar.gz"; "name."; "noext"; "..py"]
  = [".py"; ""; ".gz"; ""; ""; ".py"].
Proof. reflexivity. Qed.

Example py_splitext_examples :
  map Py.splitext_ext ["scenes/main.tscn"; "a/.gd"; "x/y.d/file"; "foo."; "...a.b"]
  = [".tscn"; ""; ""; "."; ".b"].
Proof. reflexivity. Qed.

Example py_split_examples :
  Py.splitlines ("a" +:+ String "013" (String "010" "b") +:+ String "010" (String "010" "c"))
    = ["a"; "b"; ""; "c"]
  /\ Py.split_ws "  github.com/a/B   v1.0 " = ["github.com/a/B"; "v1.0"]
  /\ Py.split_on "/" "github.com/a/B" = ["github.com"; "a"; "B"]
  /\ Py.strip "  Django==4.2  " = "Django==4.2"
  /\ Py.before_specifier "Django==4.2" = "Django"
  /\ Py.lower "Django_REST-x" = "django_rest-x".
Proof. repeat split; reflexivity. Qed.

(** ** Strings *)



Lemma contains_char_append (c : ascii) (a b : string) :
  Py.contains_char c (a +:+ b) = Py.contains_char c a || Py.contains_char c b.
Proof.
  induction a as [|x a IH]; simpl; [reflexivity|].
  rewrite IH. now rewrite orb_assoc.
Qed.



(** ** SHA-256 digests as text *)

Lemma hexdig_in (z : Z) : In (SHA256.hexdig z) SHA256.hex_digits.
Proof.
  unfold SHA256.hexdig.
  destruct (nth_in_or_default (Z.to_nat (z mod 16)) SHA256.hex_digits "0"%char)
    as [H | ->]; [exact H | simpl; auto].
Qed.


Lemma hexdigest_length (b : list Byte.byte) :
  String.length (SHA256.hexdigest b) = 64%nat.
Proof.
  unfold SHA256.hexdigest. generalize (SHA256.digest_state b).
  intros [a0 a1 a2 a3 a4 a5 a6 a7].
  cbv [SHA256.hex_of_state SHA256.hex32 SHA256.sa SHA256.sb SHA256.sc
       SHA256.sd SHA256.se SHA256.sf SHA256.sg SHA256.sh app
       string_of_list_ascii String.length].
  reflexivity.
Qed.




(** ** Structural hash *)











(** ** Staleness check: the gates before the tiers *)






(** ** Cache store *)







(** ** Scores are fractions *)

Lemma count_matches_le (f : string -> bool) (signals : list string) :
  (count_matches f signals <= List.length signals)%nat.
Proof.
  unfold count_matches. induction signals as [|s l IH]; simpl; [lia|].
  destruct (f s); simpl; lia.
Qed.

Lemma ratio_bounds (m n : nat) :
  (m <= n)%nat -> (0 < n)%nat -> (0 <= ratio m n /\ ratio m n <= 1)%Q.
Proof.
  intros Hmn Hn. unfold ratio, Qle; simpl.
  rewrite Z.mul_1_r. destruct n as [|k]; [lia|].
  rewrite Znat.positive_nat_Z || idtac.
  assert (Z.pos (Pos.of_nat (S k)) = Z.of_nat (S k)) as ->
    by (rewrite <- Znat.positive_nat_Z, Nat2Pos.id; lia).
  lia.
Qed.

Lemma zero_bounds : (0 <= 0 /\ 0 <= 1)%Q.
Proof. split; discriminate. Qed.

Lemma signals_ratio_bounds (f : string -> bool) (s : string) (l : list string) :
  (0 <= ratio (count_matches f (s :: l)) (List.length (s :: l))
   /\ ratio (count_matches f (s :: l)) (List.length (s :: l)) <= 1)%Q.
Proof. apply ratio_bounds; [apply count_matches_le | simpl; lia]. Qed.



Lemma gather_frameworks_bounds `{PyLibs} (p : project) (signals : list string) :
  (0 <= gather_frameworks p signals /\ gather_frameworks p signals <= 1)%Q.
Proof.
  unfold gather_frameworks. destruct signals; [apply zero_bounds|].
  apply signals_ratio_bounds.
Qed.

Lemma gather_keywords_bounds (p : project) (signals : list string) (limit : nat) :
  (0 <= gather_keywords p signals limit /\ gather_keywords p signals limit <= 1)%Q.
Proof.
  unfold gather_keywords. destruct signals; [apply zero_bounds|].
  destruct (negb (p_listable p)); [apply zero_bounds|].
  destruct (firstn limit _); [apply zero_bounds|].
  destruct (String.eqb _ _); [apply zero_bounds|].
  apply signals_ratio_bounds.
Qed.


(** ** Detection results *)

Lemma insert_desc_perm (x : result) (l : list result) :
  Permutation (insert_desc x l) (x :: l).
Proof.
  induction l as [|y l IH]; simpl; [reflexivity|].
  destruct (Qle_bool _ _); [reflexivity|].
  rewrite IH. apply perm_swap.
Qed.

Lemma sort_desc_perm (l : list result) : Permutation (sort_desc l) l.
Proof.
  induction l as [|x l IH]; simpl; [reflexivity|].
  rewrite insert_desc_perm. now constructor.
Qed.

Lemma forall_perm {A} (P : A -> Prop) (l l' : list A) :
  Permutation l l' -> List.Forall P l -> List.Forall P l'.
Proof.
  intros Hp Hl. apply List.Forall_forall. intros a Ha.
  eapply List.Forall_forall; [exact Hl|].
  eapply Permutation_in; [symmetry; exact Hp | exact Ha].
Qed.

Lemma insert_desc_sorted (x : result) (l : list result) :
  StronglySorted by_confidence_desc l ->
  StronglySorted by_confidence_desc (insert_desc x l).
Proof.
  induction 1 as [|y l Hs IH Hall]; simpl.
  - repeat constructor.
  - destruct (Qle_bool (r_confidence y) (r_confidence x)) eqn:E.
    + apply Qle_bool_iff in E. constructor; [now constructor|].
      constructor; [exact E|].
      eapply List.Forall_impl; [|exact Hall].
      intros z Hz. unfold by_confidence_desc in *. lra.
    + assert (r_confidence x <= r_confidence y)%Q as Hxy.
      { destruct (Qlt_le_dec (r_confidence x) (r_confidence y)) as [Hl|Hl];
          [lra | apply Qle_bool_iff in Hl; congruence]. }
      constructor; [exact IH|].
      apply (forall_perm _ (x :: l));
        [symmetry; apply insert_desc_perm | now constructor].
Qed.

Lemma sort_desc_sorted (l : list result) :
  StronglySorted by_confidence_desc (sort_desc l).
Proof.
  induction l as [|x l IH]; simpl; [constructor | now apply insert_desc_sorted].
Qed.

Lemma mark_primary_names (l : list result) :
  map r_name (mark_primary l) = map r_name l.
Proof. destruct l; reflexivity. Qed.

Lemma mark_primary_confidences (l : list result) :
  map r_confidence (mark_primary l) = map r_confidence l.
Proof. destruct l; reflexivity. Qed.

Lemma detect_names `{PyLibs} (p : project) (domains : list DomainSpec)
    (skip : bool) :
  Permutation (map r_name (detect p domains skip))
              (map profile (passing p domains skip)).
Proof.
  unfold detect. rewrite mark_primary_names.
  rewrite (Permutation_map r_name (sort_desc_perm _)).
  unfold passing. induction domains as [|s l IH]; simpl; [reflexivity|].
  destruct (Qle_bool _ _); simpl; [now constructor | exact IH].
Qed.

Lemma shortcut_same_verdict `{PyLibs} (p : project) (spec : DomainSpec) :
  Qle_bool (min_confidence spec) (confidence p spec true)
  = Qle_bool (min_confidence spec) (confidence p spec false).
Proof.
  pose proof (gather_keywords_bounds p (keywords spec) DEFAULT_LIMIT) as [Hk _].
  unfold confidence. cbn [andb].
  destruct (Qle_bool (min_confidence spec)
              (gather_directories p (directories spec) * W_DIR
               + gather_files p (files spec) * W_FILE
               + gather_frameworks p (frameworks spec) * W_FRAMEWORK)) eqn:E;
    [|reflexivity].
  rewrite E. symmetry. apply Qle_bool_iff. apply Qle_bool_iff in E.
  unfold score_domain, W_KEYWORD. lra.
Qed.

(** C3.  The keyword shortcut does not change which domains are
    reported: with and without it, detection returns the same names. *)
Theorem shortcut_preserves_names `{PyLibs} (p : project)
    (domains : list DomainSpec) :
  Permutation (map r_name (detect p domains true))
              (map r_name (detect p domains false)).
Proof.
  rewrite !detect_names. unfold passing.
  erewrite filter_ext; [reflexivity|].
  intros spec. apply shortcut_same_verdict.
Qed.




(** C6.  A detection result list is sorted by descending confidence;
    its first element, if any, is primary and no other element is. *)
Theorem detect_sorted_primary `{PyLibs} (p : project)
    (domains : list DomainSpec) (skip : bool) :
  StronglySorted by_confidence_desc (detect p domains skip)
  /\ match detect p domains skip with
     | [] => True
     | first :: rest =>
         r_primary first = true
         /\ Forall (fun r => r_primary r = false) rest
     end.
Proof.
  unfold detect.
  set (results := flat_map _ domains).
  assert (Hflags : Forall (fun r => r_primary r = false) results).
  { subst results. apply List.Forall_forall. intros r Hr.
    apply in_flat_map in Hr as (s & _ & Hr).
    destruct (Qle_bool _ _); [|destruct Hr].
    destruct Hr as [<- | []]. reflexivity. }
  pose proof (sort_desc_sorted results) as Hs.
  pose proof (forall_perm _ _ _ (Permutation_sym (sort_desc_perm results)) Hflags)
    as Hf.
  destruct (sort_desc results) as [|r rest]; simpl; [split; [constructor | exact I]|].
  inversion Hs as [|? ? Hs' Hall]; subst.
  inversion Hf as [|? ? _ Hrest]; subst.
  split; [|split; [reflexivity | exact Hrest]].
  constructor; [exact Hs' | exact Hall].
Qed.

(** ** A cache without domains *)

Lemma read_cache_absent `{PyLibs} (fs : store) (path : string) :
  read_cache (delete path fs) path = None.
Proof. unfold read_cache. now rewrite lookup_delete_eq. Qed.

(** Without a cache hit, what a plain run prints and returns does not
    depend on the store it starts from. *)
Lemma main_miss `{PyLibs} (inv : invocation) (p : project) (fs fs' : store) :
  check_stale_flag inv = false ->
  read_cache fs (cache_path inv) = None ->
  read_cache fs' (cache_path inv) = None ->
  exit_code (main inv p fs) = exit_code (main inv p fs')
  /\ printed (main inv p fs) = printed (main inv p fs').
Proof.
  intros Hflag Hfs Hfs'. unfold main. rewrite Hflag, Hfs, Hfs'.
  destruct (project_is_dir inv); cbn [negb]; [|split; reflexivity].
  destruct (index inv) as [| |domains]; [split; reflexivity ..|].
  destruct (detect p domains true); [split; reflexivity|].
  unfold write_cache.
  destruct (we_fault (write_environment inv)); split; reflexivity.
Qed.

(** C10.  A cache file that parses to a mapping whose [domains] value is
    empty or otherwise falsy is no cache: [read_cache] returns [None],
    the staleness check answers NO_CACHE without any probe, and a plain
    run returns and prints what it does when the file is absent. *)
Theorem empty_domains_is_no_cache `{PyLibs} (p : project) (fs : store)
    (path text : string) (data : cache_dict) :
  fs !! path = Some (Some text) ->
  yaml_safe_load text = Some (PDict data) ->
  truthy (dict_get data "domains") = false ->
  read_cache fs path = None
  /\ (forall dry_run, check_stale p fs path dry_run = (NO_CACHE, []))
  /\ (forall inv,
        cache_path inv = path -> check_stale_flag inv = false ->
        exit_code (main inv p fs) = exit_code (main inv p (delete path fs))
        /\ printed (main inv p fs) = printed (main inv p (delete path fs))).
Proof.
  intros Hfile Hload Hfalsy.
  assert (read_cache fs path = None) as Hread.
  { unfold read_cache. now rewrite Hfile, Hload, Hfalsy. }
  split; [exact Hread|]. split.
  - intros dry_run. unfold check_stale. now rewrite Hread.
  - intros inv <- Hflag. apply main_miss; auto using read_cache_absent.
Qed.

Lemma empty_domains_is_no_cache_witness :
  @read_cache Demo.libs empty_domains_store "cache.yaml" = None
  /\ (forall dry_run,
        @check_stale Demo.libs src_project empty_domains_store "cache.yaml" dry_run
        = (NO_CACHE, []))
  /\ (forall inv,
        cache_path inv = "cache.yaml" -> check_stale_flag inv = false ->
        exit_code (@main Demo.libs inv src_project empty_domains_store)
        = exit_code (@main Demo.libs inv src_project
                       (delete "cache.yaml" empty_domains_store))
        /\ printed (@main Demo.libs inv src_project empty_domains_store)
           = printed (@main Demo.libs inv src_project
                        (delete "cache.yaml" empty_domains_store))).
Proof.
  apply (@empty_domains_is_no_cache Demo.libs src_project empty_domains_store
           "cache.yaml" empty_domains_text
           [("cache_version", PInt 1); ("domains", PList []);
            ("override", PBool true)]);
    vm_compute; reflexivity.
Defined.

(** ** Framework matching and letter case *)

(** C2.  Framework matching strips hyphens and underscores but never
    changes letter case: a requirement [Django] is pooled as [django]
    and the signal [Django] then misses it, and a [package.json]
    dependency [React] is pooled as written and the signal [react]
    misses it, although both pairs agree once lower-cased. *)
Theorem frameworks_case_sensitive `{PyLibs} (manifest : string) :
  json_loads manifest
  = Some (PDict [("dependencies", PDict [("React", PStr "^18.2.0")])]) ->
  (_parse_requirements_txt django_project = ["django"; "gunicorn"]
   /\ Py.lower (strip_separators "Django") = strip_separators "django"
   /\ gather_frameworks django_project ["Django"] = 0%Q)
  /\ (_parse_package_json_deps (package_json_project manifest) = ["React"]
      /\ Py.lower (strip_separators "React") = strip_separators "react"
      /\ gather_frameworks (package_json_project manifest) ["react"] = 0%Q).
Proof.
  intros Hjson. split.
  - split; [reflexivity|]. split; reflexivity.
  - assert (_parse_package_json_deps (package_json_project manifest) = ["React"])
      as Hdeps.
    { unfold _parse_package_json_deps. cbn. rewrite Hjson. reflexivity. }
    split; [exact Hdeps|]. split; [reflexivity|].
    unfold gather_frameworks, all_deps. rewrite Hdeps. reflexivity.
Qed.

Lemma frameworks_case_sensitive_witness :
  (_parse_requirements_txt django_project = ["django"; "gunicorn"]
   /\ Py.lower (strip_separators "Django") = strip_separators "django"
   /\ @gather_frameworks Demo.libs django_project ["Django"] = 0%Q)
  /\ (@_parse_package_json_deps Demo.libs
        (package_json_project Demo.REACT_MANIFEST) = ["React"]
      /\ Py.lower (strip_separators "React") = strip_separators "react"
      /\ @gather_frameworks Demo.libs
           (package_json_project Demo.REACT_MANIFEST) ["react"] = 0%Q).
Proof.
  apply (@frameworks_case_sensitive Demo.libs Demo.REACT_MANIFEST).
  vm_compute. reflexivity.
Defined.

(* ===================================================================== *)
(** * Further properties of the code *)
(* ===================================================================== *)

(** ** Exit codes and tiers of the staleness check *)

Lemma tier1_codes (p : project) (cache : cache_dict) (z : Z) :
  _check_stale_tier1 p cache = Some z -> z = FRESH \/ z = STALE.
Proof.
  unfold _check_stale_tier1.
  destruct (negb _ || negb _); [discriminate|].
  destruct (String.eqb _ _); intros [= <-]; auto.
Qed.

Lemma tier2_codes `{PyLibs} (p : project) (cache : cache_dict) (z : Z) :
  _check_stale_tier2 p cache = Some z -> z = FRESH \/ z = STALE.
Proof.
  unfold _check_stale_tier2.
  destruct (child p ".git"); [|discriminate].
  destruct (match git_is_shallow (p_git p) with
            | ProcUnavailable => false | ProcDone rc out _ => _ end);
    [discriminate|].
  destruct (_parse_iso_datetime _); [|intros [= <-]; auto].
  destruct (git_log_changes _ _); [discriminate|].
  destruct (negb _); [discriminate|].
  destruct (_ ++ _); intros [= <-]; auto.
Qed.

Lemma tier3_codes `{PyLibs} (p : project) (cache : cache_dict) :
  _check_stale_tier3 p cache = FRESH \/ _check_stale_tier3 p cache = STALE.
Proof.
  unfold _check_stale_tier3.
  destruct (_parse_iso_datetime _); [|auto].
  destruct (existsb _ _); auto.
Qed.

(** X1.  The staleness check only ever answers 0 (fresh), 3 (stale) or
    4 (no cache), and it answers 4 exactly when [read_cache] finds no
    usable cache. *)
Theorem check_stale_exit_codes `{PyLibs} (p : project) (fs : store)
    (path : string) (dry_run : bool) :
  (fst (check_stale p fs path dry_run) = FRESH
   \/ fst (check_stale p fs path dry_run) = STALE
   \/ fst (check_stale p fs path dry_run) = NO_CACHE)
  /\ (fst (check_stale p fs path dry_run) = NO_CACHE
      <-> read_cache fs path = None).
Proof.
  unfold check_stale.
  destruct (read_cache fs path) as [cache|]; [|split; [auto | tauto]].
  assert (forall z : Z, z = FRESH \/ z = STALE ->
            (z = FRESH \/ z = STALE \/ z = NO_CACHE)
            /\ (z = NO_CACHE <-> Some cache = None)) as Hok.
  { intros z [-> | ->]; (split; [auto | split; discriminate]). }
  destruct (truthy _); [apply Hok; auto|].
  destruct (is_none _ || _); [apply Hok; auto|].
  destruct (_check_stale_tier1 p cache) as [z1|] eqn:E1;
    [apply Hok; cbn [fst]; eapply tier1_codes; eauto|].
  destruct (_check_stale_tier2 p cache) as [z2|] eqn:E2;
    [apply Hok; cbn [fst]; eapply tier2_codes; eauto|].
  apply Hok; cbn [fst]. apply tier3_codes.
Qed.

(** X2.  When the cache stores a structural hash, tier 1 alone decides:
    the check answers fresh if the stored hash equals the project's
    current one and stale otherwise, and neither git nor modification
    times are consulted. *)
Theorem stored_hash_decides `{PyLibs} (p : project) (fs : store)
    (path : string) (dry_run : bool) (cache : cache_dict) (h : string) :
  read_cache fs path = Some cache ->
  truthy (dict_get cache "override") = false ->
  dict_get cache "cache_version" = PInt CACHE_VERSION ->
  dict_get cache "structural_hash" = PStr h ->
  h <> "" ->
  check_stale p fs path dry_run
  = (if String.eqb h (compute_structural_hash p) then FRESH else STALE,
     (if dry_run then [DiagnosticHash] else []) ++ [RanTier1]).
Proof.
  intros Hread Hov Hver Hhash Hne.
  unfold check_stale, _check_stale_tier1.
  rewrite Hread, Hov, Hver, Hhash.
  destruct h as [|c h']; [congruence|].
  set (current := compute_structural_hash p).
  cbn [is_none is_int int_value truthy is_str].
  change (String.eqb (String c h') "") with false.
  rewrite Z.eqb_refl. cbn [negb andb orb].
  destruct (String.eqb _ current); reflexivity.
Qed.

Lemma stored_hash_decides_witness :
  @check_stale Demo.libs empty_project written_cache_store "cache.yaml" false
  = (FRESH, [RanTier1])
  /\ @check_stale Demo.libs makefile_project written_cache_store "cache.yaml" true
     = (STALE, [DiagnosticHash; RanTier1]).
Proof.
  split.
  - etransitivity;
      [apply (@stored_hash_decides Demo.libs empty_project written_cache_store
                "cache.yaml" false
                (cache_payload (PList [Demo.web_api]) Demo.NOON
                   (Some Demo.EMPTY_HASH))
                Demo.EMPTY_HASH)
      | vm_compute; reflexivity];
      solve [vm_compute; reflexivity | discriminate].
  - etransitivity;
      [apply (@stored_hash_decides Demo.libs makefile_project written_cache_store
                "cache.yaml" true
                (cache_payload (PList [Demo.web_api]) Demo.NOON
                   (Some Demo.EMPTY_HASH))
                Demo.EMPTY_HASH)
      | vm_compute; reflexivity];
      solve [vm_compute; reflexivity | discriminate].
Defined.

(** X3.  A cache that records neither a structural hash nor a detection
    time can never be confirmed: the check answers stale whatever the
    project, git or the modification times say. *)
Theorem bare_cache_is_stale `{PyLibs} (p : project) (fs : store)
    (path : string) (dry_run : bool) (cache : cache_dict) :
  read_cache fs path = Some cache ->
  truthy (dict_get cache "override") = false ->
  dict_get cache "cache_version" = PInt CACHE_VERSION ->
  assoc "structural_hash" cache = None ->
  assoc "detected_at" cache = None ->
  fst (check_stale p fs path dry_run) = STALE.
Proof.
  intros Hread Hov Hver Hhash Hat.
  unfold check_stale, _check_stale_tier1, _check_stale_tier2,
    _check_stale_tier3, dict_get_default.
  rewrite Hread, Hov, Hver. unfold dict_get at 1 2. rewrite Hhash, Hat.
  cbn [is_none is_int int_value truthy is_str py_str negb orb andb].
  rewrite Z.eqb_refl. cbn [negb andb orb].
  change (_parse_iso_datetime "") with (@None datetime).
  destruct (child p ".git"); [|reflexivity].
  destruct (match git_is_shallow (p_git p) with
            | ProcUnavailable => false | ProcDone rc out _ => _ end);
    reflexivity.
Qed.

Lemma bare_cache_is_stale_witness :
  fst (@check_stale bare_libs git_project bare_cache_store "cache.yaml" false)
  = STALE
  /\ fst (@check_stale bare_libs empty_project bare_cache_store "cache.yaml" true)
     = STALE.
Proof.
  split.
  - apply (@bare_cache_is_stale bare_libs git_project bare_cache_store
             "cache.yaml" false bare_cache); vm_compute; reflexivity.
  - apply (@bare_cache_is_stale bare_libs empty_project bare_cache_store
             "cache.yaml" true bare_cache); vm_compute; reflexivity.
Defined.




Lemma existsb_agree {A} (f g : A -> bool) (l : list A) :
  (forall x, In x l -> f x = g x) -> existsb f l = existsb g l.
Proof.
  induction l as [|a l IH]; intros Hfg; [reflexivity|].
  cbn [existsb]. rewrite (Hfg a) by now left.
  rewrite IH; [reflexivity|]. intros x Hx. apply Hfg. now right.
Qed.

(** X5.  The modification-time tier looks at the twelve structural
    files only: two project trees that agree on them get the same
    answer, however their other files and directories differ. *)
Theorem tier3_only_structural_files `{PyLibs} (p p' : project)
    (cache : cache_dict) :
  (forall name, In name STRUCTURAL_FILES -> child p name = child p' name) ->
  _check_stale_tier3 p cache = _check_stale_tier3 p' cache.
Proof.
  intros Hsame. unfold _check_stale_tier3.
  destruct (_parse_iso_datetime _); [|reflexivity].
  erewrite existsb_agree; [reflexivity|].
  intros name Hname. cbv beta. now rewrite (Hsame name Hname).
Qed.

Lemma tier3_only_structural_files_witness :
  @_check_stale_tier3 Demo.libs node_project_edited
    [("detected_at", PStr Demo.NOON)]
  = @_check_stale_tier3 Demo.libs node_project
      [("detected_at", PStr Demo.NOON)].
Proof.
  apply (@tier3_only_structural_files Demo.libs).
  intros name Hname. cbv in Hname.
  repeat (destruct Hname as [<- | Hname]; [reflexivity|]). destruct Hname.
Defined.

(** ** The footprint of a cache write *)



(** X7.  A write without fault does not raise, replaces the target by
    the header line followed by the YAML of the payload, and leaves no
    temporary file behind. *)
Theorem write_cache_success `{PyLibs} (env : write_env) (fs : store)
    (path : string) (results : pyval) (sh : option string) :
  we_fault env = NoFault ->
  we_tmp env <> path ->
  let run := write_cache env fs path results sh in
  wr_raised run = false
  /\ store_after fs run !! path
     = Some (Some (CACHE_HEADER
                   +:+ yaml_dump (PDict (cache_payload results (we_now env) sh))))
  /\ store_after fs run !! we_tmp env = None
  /\ dict_get (cache_payload results (we_now env) sh) "cache_version"
     = PInt CACHE_VERSION.
Proof.
  intros Hf Hne. unfold write_cache, store_after. rewrite Hf.
  cbn [wr_states wr_raised List.last].
  split; [reflexivity|]. split; [now rewrite lookup_insert_eq|].
  split; [|destruct sh; reflexivity].
  rewrite lookup_insert_ne by congruence.
  apply lookup_delete_eq.
Qed.

Lemma write_cache_success_witness :
  let run := @write_cache Demo.libs (demo_env NoFault) busy_store "cache.yaml"
               (PList [Demo.web_api]) None in
  wr_raised run = false
  /\ store_after busy_store run !! "cache.yaml"
     = Some (Some (CACHE_HEADER
                   +:+ Demo.dump (PDict (cache_payload (PList [Demo.web_api])
                                           Demo.NOON None))))
  /\ store_after busy_store run !! ".claude/tmpk3x9.tmp" = None
  /\ dict_get (cache_payload (PList [Demo.web_api]) Demo.NOON None)
       "cache_version" = PInt CACHE_VERSION.
Proof.
  apply (@write_cache_success Demo.libs (demo_env NoFault) busy_store
           "cache.yaml" (PList [Demo.web_api]) None).
  - reflexivity.
  - vm_compute. discriminate.
Defined.

(** ** The command line driver *)


Lemma check_stale_code_range `{PyLibs} (p : project) (fs : store)
    (path : string) (dry_run : bool) :
  In (fst (check_stale p fs path dry_run)) [0; 3; 4].
Proof.
  unfold check_stale.
  assert (forall z : Z, z = FRESH \/ z = STALE -> In z [0; 3; 4]) as Hok.
  { intros z [-> | ->]; cbn; auto. }
  destruct (read_cache fs path) as [cache|]; [|cbn; auto].
  destruct (truthy _); [cbn; auto|].
  destruct (is_none _ || _); [cbn; auto|].
  destruct (_check_stale_tier1 p cache) as [z1|] eqn:E1;
    [apply Hok; eapply tier1_codes; eauto|].
  destruct (_check_stale_tier2 p cache) as [z2|] eqn:E2;
    [apply Hok; eapply tier2_codes; eauto|].
  apply Hok, tier3_codes.
Qed.

(** X8.  A detection run exits with 0, 1 or 2, a staleness run with 0,
    2, 3 or 4; exit code 1 means that detection ran over the loaded
    index and no domain reached its threshold. *)
Theorem main_exit_codes `{PyLibs} (inv : invocation) (p : project)
    (fs : store) :
  (if check_stale_flag inv
   then In (exit_code (main inv p fs)) [0; 2; 3; 4]
   else In (exit_code (main inv p fs)) [0; 1; 2])
  /\ (exit_code (main inv p fs) = 1 ->
      check_stale_flag inv = false
      /\ exists domains,
           index inv = IndexLoaded domains /\ detect p domains true = []).
Proof.
  unfold main.
  destruct (project_is_dir inv); cbn [negb];
    [|split; [destruct (check_stale_flag inv); cbn [exit_code In]; auto
             | discriminate]].
  destruct (check_stale_flag inv).
  - pose proof (check_stale_code_range p fs (cache_path inv) (dry_run_flag inv))
      as Hcodes.
    cbn [exit_code]. cbn [In] in *. split.
    + destruct Hcodes as [<- | [<- | [<- | []]]]; auto.
    + destruct Hcodes as [E | [E | [E | []]]]; rewrite <- E; discriminate.
  - set (hit := match read_cache fs (cache_path inv) with
                | Some c =>
                    if negb (no_cache inv) then Some c
                    else if truthy (dict_get c "override") then Some c else None
                | None => None
                end).
    destruct (index inv) as [| |domains];
      [cbn [exit_code In]; split; [auto | discriminate]| |].
    + destruct hit; cbn [exit_code In]; (split; [auto | discriminate]).
    + destruct hit; [cbn [exit_code In]; split; [auto | discriminate]|].
      destruct (detect p domains true) as [|r l] eqn:E;
        [cbn [exit_code In]; split; [auto | eauto]|].
      destruct (wr_raised _); cbn [exit_code In];
        (split; [auto | discriminate]).
Qed.




Lemma structural_hash_nonempty (p : project) :
  String.eqb (compute_structural_hash p) "" = false.
Proof. reflexivity. Qed.

(** X11.  A detection run that misses the cache, finds a domain and
    writes without fault leaves a cache that the staleness check
    confirms from the hash alone and that the next run on the same
    project serves, with the time stamp stored by the write; this holds
    whenever the YAML loader reads back what the printer wrote. *)
Theorem first_run_then_cached `{PyLibs} (inv : invocation) (p : project)
    (fs : store) (domains : list DomainSpec) (r : result) (l : list result) :
  project_is_dir inv = true ->
  check_stale_flag inv = false ->
  index inv = IndexLoaded domains ->
  read_cache fs (cache_path inv) = None ->
  detect p domains true = r :: l ->
  we_fault (write_environment inv) = NoFault ->
  yaml_safe_load
    (cache_content (results_value (r :: l)) (we_now (write_environment inv))
       (Some (compute_structural_hash p)))
  = Some (PDict (cache_payload (results_value (r :: l))
                   (we_now (write_environment inv))
                   (Some (compute_structural_hash p)))) ->
  main inv p fs
  = MkOutcome 0
      (Some (PDict [("domains", results_value (r :: l));
                    ("detected_at", PStr (printed_now inv))]))
      (store_out (main inv p fs))
  /\ (forall dry_run,
        check_stale p (store_out (main inv p fs)) (cache_path inv) dry_run
        = (FRESH, (if dry_run then [DiagnosticHash] else []) ++ [RanTier1]))
  /\ (forall inv',
        cache_path inv' = cache_path inv ->
        project_is_dir inv' = true ->
        check_stale_flag inv' = false ->
        index inv' <> IndexMissing ->
        no_cache inv' = false ->
        main inv' p (store_out (main inv p fs))
        = MkOutcome 0
            (Some (PDict [("domains", results_value (r :: l));
                          ("detected_at",
                           PStr (we_now (write_environment inv)))]))
            (store_out (main inv p fs))).
Proof.
  intros Hdir Hflag Hidx Hmiss Hdet Hfault Hyaml.
  set (payload := cache_payload (results_value (r :: l))
                    (we_now (write_environment inv))
                    (Some (compute_structural_hash p))) in *.
  assert (main inv p fs
          = MkOutcome 0
              (Some (PDict [("domains", results_value (r :: l));
                            ("detected_at", PStr (printed_now inv))]))
              (store_after fs
                 (write_cache (write_environment inv) fs (cache_path inv)
                    (results_value (r :: l))
                    (Some (compute_structural_hash p))))) as Hmain.
  { unfold main. rewrite Hdir, Hflag, Hidx, Hmiss, Hdet. cbn [negb].
    unfold write_cache at 1. rewrite Hfault. reflexivity. }
  assert (read_cache (store_out (main inv p fs)) (cache_path inv)
          = Some payload) as Hread.
  { rewrite Hmain. cbn [store_out]. unfold write_cache, store_after.
    rewrite Hfault. cbn [wr_states List.last].
    unfold read_cache. rewrite lookup_insert_eq, Hyaml. reflexivity. }
  split; [|split].
  - rewrite Hmain at 1. now rewrite Hmain.
  - intros dry_run. unfold check_stale, _check_stale_tier1. rewrite Hread.
    change (dict_get payload "override") with PNone.
    change (dict_get payload "cache_version") with (PInt CACHE_VERSION).
    change (dict_get payload "structural_hash")
      with (PStr (compute_structural_hash p)).
    cbn [truthy is_none is_int int_value is_str].
    rewrite structural_hash_nonempty, String.eqb_refl. reflexivity.
  - intros inv' Hpath Hdir' Hflag' Hidx' Hnc.
    set (fs' := store_out (main inv p fs)) in *. unfold main.
    rewrite Hdir', Hflag', Hpath, Hread, Hnc. cbn [negb].
    destruct (index inv'); [congruence | reflexivity | reflexivity].
Qed.

Lemma first_run_then_cached_witness :
  @main src_libs (plain_run [web_api_spec]) src_project ∅
  = MkOutcome 0
      (Some (PDict [("domains", results_value src_results);
                    ("detected_at", PStr Demo.NOON)]))
      (store_out (@main src_libs (plain_run [web_api_spec]) src_project ∅))
  /\ (forall dry_run,
        @check_stale src_libs src_project
          (store_out (@main src_libs (plain_run [web_api_spec]) src_project ∅))
          "cache.yaml" dry_run
        = (FRESH, (if dry_run then [DiagnosticHash] else []) ++ [RanTier1])).
Proof.
  pose proof (@first_run_then_cached src_libs (plain_run [web_api_spec])
                src_project ∅ [web_api_spec]
                (MkResult "web-api" (30 # 100) true) []) as Hrun.
  destruct Hrun as (Hfirst & Hfresh & _); try (vm_compute; reflexivity).
  split; [exact Hfirst | exact Hfresh].
Defined.

(** ** Signal gatherers *)

Lemma lower_char_idem (c : ascii) :
  Py.lower_char (Py.lower_char c) = Py.lower_char c.
Proof. destruct c as [[] [] [] [] [] [] [] []]; reflexivity. Qed.

Lemma lower_idem (s : string) : Py.lower (Py.lower s) = Py.lower s.
Proof.
  induction s as [|c s IH]; [reflexivity|].
  cbn [Py.lower]. now rewrite lower_char_idem, IH.
Qed.

Lemma mem_true (x : string) (l : list string) :
  Py.mem x l = true <-> In x l.
Proof.
  unfold Py.mem. rewrite existsb_exists. split.
  - intros (y & Hy & E). apply String.eqb_eq in E. now subst.
  - intros Hin. exists x. split; [exact Hin | apply String.eqb_refl].
Qed.

(** X12.  Framework matching ignores hyphens and underscores: a signal
    that equals some extracted dependency name once both are stripped of
    them is counted as found. *)
Theorem frameworks_ignore_separators `{PyLibs} (p : project)
    (sig dep : string) :
  In dep (all_deps p) ->
  strip_separators sig = strip_separators dep ->
  gather_frameworks p [sig] = 1%Q.
Proof.
  intros Hdep Hsame. unfold gather_frameworks, count_matches.
  cbn [List.filter].
  assert (Py.mem (strip_separators sig) (map strip_separators (all_deps p))
          = true) as ->.
  { apply mem_true. rewrite Hsame. now apply in_map. }
  reflexivity.
Qed.

Lemma frameworks_ignore_separators_witness :
  @gather_frameworks Demo.libs sklearn_project ["scikit_learn"] = 1%Q.
Proof.
  apply (@frameworks_ignore_separators Demo.libs sklearn_project
           "scikit_learn" "scikit-learn").
  - vm_compute. auto.
  - reflexivity.
Defined.

Lemma requirement_name_lower (spec : string) :
  Py.lower (requirement_name spec) = requirement_name spec.
Proof. unfold requirement_name. apply lower_idem. Qed.

Lemma last_segment_lower_lower (path : string) :
  Py.lower (last_segment_lower path) = last_segment_lower path.
Proof. unfold last_segment_lower. apply lower_idem. Qed.

Lemma pep621_names_lower (deps : list pyval) (names : list string) (n : string) :
  pep621_names deps = Some names -> In n names -> Py.lower n = n.
Proof.
  revert names. induction deps as [|d deps IH]; intros names.
  - intros [= <-] [].
  - destruct d; try discriminate. cbn [pep621_names].
    destruct (pep621_names deps) as [rest|]; [|discriminate].
    cbn. intros [= <-] Hin.
    destruct (nonempty _); [destruct Hin as [<- | Hin]|].
    + apply requirement_name_lower.
    + now apply (IH rest).
    + now apply (IH rest).
Qed.

(** X13.  The go.mod, pyproject.toml and requirements.txt parsers only
    return lower-case names, and a name taken from requirements.txt is
    never empty, whatever the files contain. *)
Theorem parsed_names_lower_case `{PyLibs} (p : project) (n : string) :
  In n (_parse_go_mod_deps p ++ _parse_pyproject_deps p
        ++ _parse_requirements_txt p) ->
  Py.lower n = n
  /\ (In n (_parse_requirements_txt p) -> n <> "").
Proof.
  intros Hin. split.
  - apply in_app_or in Hin as [Hgo | Hin];
      [|apply in_app_or in Hin as [Hpy | Hreq]].
    + unfold _parse_go_mod_deps in Hgo.
      destruct (child p "go.mod") as [node|]; [|destruct Hgo].
      destruct (read_text node) as [text|]; [|destruct Hgo].
      apply in_app_or in Hgo as [Hblock | Hline].
      * apply in_flat_map in Hblock as (block & _ & Hblock).
        apply in_flat_map in Hblock as (line & _ & Hline).
        destruct (Py.split_ws (Py.strip line)) as [|first rest];
          [destruct Hline|].
        destruct (Py.startswith "//" first); [destruct Hline|].
        destruct Hline as [<- | []]. apply last_segment_lower_lower.
      * apply in_map_iff in Hline as (path & <- & _).
        apply last_segment_lower_lower.
    + unfold _parse_pyproject_deps in Hpy.
      destruct (child p "pyproject.toml") as [node|]; [|destruct Hpy].
      destruct (read_text node) as [text|]; [|destruct Hpy]. cbn in Hpy.
      destruct (tomllib_loads text) as [data|]; [|destruct Hpy]. cbn in Hpy.
      destruct (py_get data "project" (PDict [])) as [table|];
        [|destruct Hpy]. cbn in Hpy.
      destruct (py_get table "dependencies" (PList [])) as [declared|];
        [|destruct Hpy]. cbn in Hpy.
      destruct (py_iter declared) as [deps|]; [|destruct Hpy]. cbn in Hpy.
      destruct (pep621_names deps) as [names|] eqn:Hnames;
        [|destruct Hpy]. cbn in Hpy.
      destruct (py_get data "tool" (PDict [])) as [tool|];
        [|destruct Hpy]. cbn in Hpy.
      destruct (py_get tool "poetry" (PDict [])) as [poetry|];
        [|destruct Hpy]. cbn in Hpy.
      destruct (py_get poetry "dependencies" (PDict [])) as [section|];
        [|destruct Hpy]. cbn in Hpy.
      apply in_app_or in Hpy as [Hpep | Hpoetry].
      * eapply pep621_names_lower; eauto.
      * apply filter_In in Hpoetry as [Hpoetry _].
        apply in_map_iff in Hpoetry as (k & <- & _). apply lower_idem.
    + unfold _parse_requirements_txt in Hreq.
      destruct (child p "requirements.txt") as [node|]; [|destruct Hreq].
      destruct (read_text node) as [text|]; [|destruct Hreq].
      apply in_flat_map in Hreq as (raw & _ & Hreq).
      destruct (nonempty (Py.strip raw) && _); [|destruct Hreq].
      destruct (nonempty (requirement_name (Py.strip raw))); [|destruct Hreq].
      destruct Hreq as [<- | []]. apply requirement_name_lower.
  - clear Hin. intros Hreq. unfold _parse_requirements_txt in Hreq.
    destruct (child p "requirements.txt") as [node|]; [|destruct Hreq].
    destruct (read_text node) as [text|]; [|destruct Hreq].
    apply in_flat_map in Hreq as (raw & _ & Hreq).
    destruct (nonempty (Py.strip raw) && _); [|destruct Hreq].
    destruct (nonempty (requirement_name (Py.strip raw))) eqn:E;
      [|destruct Hreq].
    destruct Hreq as [<- | []]. unfold nonempty in E.
    intros Hempty. rewrite Hempty in E. discriminate.
Qed.

Lemma parsed_names_lower_case_witness :
  Py.lower "scikit-learn" = "scikit-learn"
  /\ (In "scikit-learn" (_parse_requirements_txt sklearn_project) ->
      "scikit-learn" <> "").
Proof.
  apply (@parsed_names_lower_case Demo.libs sklearn_project "scikit-learn").
  vm_compute. auto.
Defined.

Lemma count_matches_map (f : string -> bool) (g : string -> string)
    (l : list string) :
  count_matches f (map g l) = count_matches (fun x => f (g x)) l.
Proof.
  unfold count_matches. induction l as [|x l IH]; [reflexivity|].
  cbn [map List.filter]. destruct (f (g x)); cbn [List.length]; now rewrite IH.
Qed.

(** X14.  Keyword matching does not depend on the letter case of the
    keywords: lower-casing every keyword of a domain leaves its keyword
    score unchanged. *)
Theorem keywords_case_insensitive (p : project) (signals : list string)
    (limit : nat) :
  gather_keywords p (map Py.lower signals) limit
  = gather_keywords p signals limit.
Proof.
  unfold gather_keywords.
  destruct signals as [|s signals]; [reflexivity|].
  cbn [map]. destruct (negb (p_listable p)); [reflexivity|].
  destruct (firstn limit _) as [|f files]; [reflexivity|].
  destruct (String.eqb _ ""); [reflexivity|].
  change (Py.lower s :: map Py.lower signals) with (map Py.lower (s :: signals)).
  rewrite count_matches_map, length_map.
  unfold count_matches.
  erewrite filter_ext; [reflexivity|].
  intros kw. cbv beta. now rewrite lower_idem.
Qed.

(** X15.  Files inside a hidden directory of the root are not seen by
    file matching: the file score is the same as if the directory were
    not there. *)
Theorem hidden_directories_not_scanned `{PyLibs}
    (before after : list (string * node)) (name : string) (listable : bool)
    (children : list (string * node)) (git : git_env) (signals : list string) :
  Py.startswith "." name = true ->
  gather_files
    (MkProject true (before ++ (name, Dir listable children) :: after) git)
    signals
  = gather_files (MkProject true (before ++ after) git) signals.
Proof.
  intros Hhidden. unfold gather_files, shallow_file_names.
  cbn [p_listable p_entries negb].
  rewrite !flat_map_app. cbn [flat_map fst snd]. rewrite Hhidden.
  reflexivity.
Qed.

Lemma hidden_directories_not_scanned_witness :
  @gather_files Demo.libs (hidden_dir_project no_git) ["Dockerfile"; "Make*"]
  = @gather_files Demo.libs
      (MkProject true
         ([("src", Dir true [("main.py", text_file "import os")])]
          ++ [("Makefile", text_file ("all:" +:+ nl))])
         no_git)
      ["Dockerfile"; "Make*"].
Proof.
  apply (@hidden_directories_not_scanned Demo.libs). reflexivity.
Defined.





(** X18.  The structural hash always has the form [sha256:] followed by
    64 lower-case hexadecimal digits. *)
Theorem structural_hash_format (p : project) :
  exists digest,
    compute_structural_hash p = "sha256:" +:+ digest
    /\ String.length digest = 64%nat
    /\ Forall (fun c => In c SHA256.hex_digits) (list_ascii_of_string digest).
Proof.
  exists (SHA256.hexdigest (encode_utf8 (structural_combined p))).
  split; [reflexivity|]. split; [apply hexdigest_length|].
  unfold SHA256.hexdigest. rewrite list_ascii_of_string_of_list_ascii.
  unfold SHA256.hex_of_state, SHA256.hex32.
  repeat (apply Forall_app; split);
    repeat (apply List.Forall_cons; [apply hexdig_in|]); apply List.Forall_nil.
Qed.

(** X19.  When the project root cannot be listed, the directory, file
    and keyword scores are all 0, so only frameworks can contribute and
    the confidence is at most the framework weight. *)
Theorem unlistable_root_scores `{PyLibs} (p : project) (spec : DomainSpec)
    (skip : bool) :
  p_listable p = false ->
  gather_directories p (directories spec) = 0%Q
  /\ gather_files p (files spec) = 0%Q
  /\ gather_keywords p (keywords spec) DEFAULT_LIMIT = 0%Q
  /\ (confidence p spec skip <= W_FRAMEWORK)%Q.
Proof.
  intros Hlist.
  assert (gather_directories p (directories spec) = 0%Q) as Hd.
  { unfold gather_directories. rewrite Hlist. now destruct (directories spec). }
  assert (gather_files p (files spec) = 0%Q) as Hf.
  { unfold gather_files. rewrite Hlist. now destruct (files spec). }
  assert (gather_keywords p (keywords spec) DEFAULT_LIMIT = 0%Q) as Hk.
  { unfold gather_keywords. rewrite Hlist. now destruct (keywords spec). }
  repeat split; auto.
  pose proof (gather_frameworks_bounds p (frameworks spec)) as [Hw0 Hw1].
  unfold confidence, score_domain. rewrite Hd, Hf, Hk.
  unfold W_DIR, W_FILE, W_FRAMEWORK, W_KEYWORD.
  destruct (skip && _); lra.
Qed.

Lemma unlistable_root_scores_witness :
  (@confidence Demo.libs locked_project web_api_spec true <= W_FRAMEWORK)%Q.
Proof.
  apply (@unlistable_root_scores Demo.libs locked_project web_api_spec true).
  reflexivity.
Defined.

(* ===================================================================== *)
(** * Properties of the content hash *)
(* ===================================================================== *)

Example content_hash_python_tree :
  map fst (ContentHash.rglob "src/"
             (Dir true [("b.py", text_file "B = 2");
                        ("pkg", Dir true [("c.py", text_file "C = 3")]);
                        ("a.py", text_file "A = 1")]))
  = ["src/b.py"; "src/pkg"; "src/a.py"; "src/pkg/c.py"]
  /\ map fst (ContentHash.discover_files python_tree)
     = ["Makefile"; "README.md"; "src/a.py"; "src/b.py"; "src/pkg/c.py"]
  /\ ContentHash.main (ContentHash.MkArguments true false None) python_tree
     = (0, Some (ContentHash.Line
          "sha256:83cf1f23af61fc52d28cc7387c6f32a5b213ae2d80ab8b0f9ef568e29bf16727")).
Proof. repeat split; vm_compute; reflexivity. Qed.

Lemma insert_entry_perm (e : string * node) (l : list (string * node)) :
  Permutation (insert_entry e l) (e :: l).
Proof.
  induction l as [|y l IH]; cbn [insert_entry]; [reflexivity|].
  destruct (String.leb _ _); [reflexivity|].
  rewrite IH. apply perm_swap.
Qed.

Lemma sorted_entries_perm (l : list (string * node)) :
  Permutation (sorted_entries l) l.
Proof.
  induction l as [|e l IH]; [reflexivity|].
  unfold sorted_entries in *. cbn [fold_right].
  rewrite insert_entry_perm. now constructor.
Qed.

Lemma insert_entry_sorted (e : string * node) (l : list (string * node)) :
  Sorted by_path l -> Sorted by_path (insert_entry e l).
Proof.
  induction 1 as [|y l Hs IH Hhd]; cbn [insert_entry].
  - repeat constructor.
  - destruct (String.leb (fst e) (fst y)) eqn:E.
    + constructor; [now constructor | now constructor].
    + assert (by_path y e) as Hye.
      { destruct (String.leb_total (fst e) (fst y)) as [H | H];
          [congruence | exact H]. }
      constructor; [exact IH|].
      destruct Hhd as [|z l Hyz]; cbn [insert_entry].
      * now constructor.
      * destruct (String.leb (fst e) (fst z)); now constructor.
Qed.

Lemma sorted_entries_sorted (l : list (string * node)) :
  Sorted by_path (sorted_entries l).
Proof.
  induction l as [|e l IH]; [constructor|].
  unfold sorted_entries in *. cbn [fold_right]. now apply insert_entry_sorted.
Qed.

Lemma unique_spec (files : list ContentHash.found) :
  forall seen,
    List.NoDup (map fst (ContentHash.unique seen files))
    /\ forall e, In e (ContentHash.unique seen files) ->
         In e files /\ ~ In (fst e) seen.
Proof.
  induction files as [|f files IH]; intros seen; cbn [ContentHash.unique].
  - split; [apply List.NoDup_nil | intros e []].
  - destruct (Py.mem (fst f) seen) eqn:E.
    + destruct (IH seen) as [Hnd Hin]. split; [exact Hnd|].
      intros e He. destruct (Hin e He). split; [now right | assumption].
    + destruct (IH (fst f :: seen)) as [Hnd Hin]. split.
      * cbn [map]. apply List.NoDup_cons; [|exact Hnd].
        intros Hf. apply in_map_iff in Hf as (e & Hfst & He).
        destruct (Hin e He) as [_ Hseen]. apply Hseen. left. now symmetry.
      * intros e [<- | He].
        -- split; [now left|]. intros Hseen.
           apply mem_true in Hseen. congruence.
        -- destruct (Hin e He) as [Hfiles Hseen]. split; [now right|].
           intros Hs. apply Hseen. now right.
Qed.

(** X20.  [discover_files] returns its files in ascending order of
    their relative paths and names no path twice. *)
Theorem discover_files_sorted_unique (p : project) :
  Sorted by_path (ContentHash.discover_files p)
  /\ List.NoDup (map fst (ContentHash.discover_files p)).
Proof.
  unfold ContentHash.discover_files. split; [apply sorted_entries_sorted|].
  eapply Permutation.Permutation_NoDup.
  - apply Permutation_map. symmetry. apply sorted_entries_perm.
  - apply unique_spec.
Qed.

Lemma is_text_file_entry (e : string * node) :
  ContentHash.is_text_file (Some (snd e)) = true -> text_entry e.
Proof.
  unfold ContentHash.is_text_file, text_entry.
  destruct (snd e) as [f|]; [|discriminate].
  intros Htext. apply negb_true_iff in Htext.
  unfold ContentHash._is_binary in Htext.
  destruct (f_mtime f) eqn:Hm; [|discriminate].
  destruct (f_content f) as [content|] eqn:Hc; [|discriminate].
  exists f, content. repeat split; auto.
  unfold ContentHash._is_binary. now rewrite Hm, Hc.
Qed.

Lemma is_candidate_entry (e : ContentHash.found) :
  ContentHash.is_candidate e = true ->
  text_entry e /\ In (ContentHash.suffix_of e) ContentHash.SOURCE_EXTENSIONS.
Proof.
  unfold ContentHash.is_candidate. intros Hc. split.
  - apply is_text_file_entry. unfold ContentHash.is_text_file.
    destruct (snd e); [|discriminate]. now apply andb_true_iff in Hc.
  - destruct (snd e); [|discriminate].
    apply andb_true_iff in Hc as [Hs _]. now apply mem_true.
Qed.

Lemma first_text_file_entry (p : project) (names : list string)
    (e : ContentHash.found) :
  ContentHash.first_text_file p names = Some e -> text_entry e.
Proof.
  induction names as [|name names IH]; cbn [ContentHash.first_text_file];
    [discriminate|].
  destruct (child p name) as [n|]; [|exact IH].
  destruct (ContentHash.is_text_file (Some n)) eqn:E; [|exact IH].
  intros [= <-]. now apply is_text_file_entry.
Qed.

Lemma build_files_entry (p : project) (e : ContentHash.found) :
  In e (ContentHash._find_build_files p) -> text_entry e.
Proof.
  unfold ContentHash._find_build_files. intros He.
  apply in_flat_map in He as (name & _ & He).
  destruct (child p name) as [n|]; [|destruct He].
  destruct (ContentHash.is_text_file (Some n)) eqn:E; [|destruct He].
  destruct He as [<- | []]. now apply is_text_file_entry.
Qed.

Lemma candidates_entry (p : project) (e : ContentHash.found) :
  In e match ContentHash.source_dir_candidates p with
       | [] => ContentHash.root_candidates p
       | l => l
       end ->
  ContentHash.is_candidate e = true.
Proof.
  assert (forall x, In x (ContentHash.source_dir_candidates p) ->
            ContentHash.is_candidate x = true) as Hsrc.
  { intros x Hx. unfold ContentHash.source_dir_candidates in Hx.
    apply in_flat_map in Hx as (dirname & _ & Hx).
    destruct (child p dirname) as [[f|listable entries]|];
      try solve [destruct Hx].
    now apply filter_In in Hx as [_ Hx]. }
  destruct (ContentHash.source_dir_candidates p) as [|c l].
  - unfold ContentHash.root_candidates.
    destruct (p_listable p); [|intros []].
    intros He. now apply filter_In in He as [_ He].
  - exact (Hsrc e).
Qed.

Lemma firstn_In {A} (n : nat) (l : list A) (x : A) :
  In x (firstn n l) -> In x l.
Proof.
  revert n. induction l as [|a l IH]; intros [|n]; cbn; try tauto.
  intros [-> | Hx]; [now left | right; eauto].
Qed.

Lemma key_source_files_in (p : project) (e : ContentHash.found) :
  In e (ContentHash._find_key_source_files p) ->
  In e match ContentHash.source_dir_candidates p with
       | [] => ContentHash.root_candidates p
       | l => l
       end
  /\ exists first rest,
       match ContentHash.source_dir_candidates p with
       | [] => ContentHash.root_candidates p
       | l => l
       end = first :: rest
       /\ ContentHash.suffix_of e
          = ContentHash.most_common (first :: rest) (first :: rest)
              (ContentHash.suffix_of first).
Proof.
  unfold ContentHash._find_key_source_files.
  set (candidates := match ContentHash.source_dir_candidates p with
                     | [] => ContentHash.root_candidates p
                     | l => l
                     end).
  destruct candidates as [|first rest] eqn:E; [intros []|].
  intros He. apply firstn_In in He.
  apply (Permutation_in _ (sorted_entries_perm _)) in He.
  apply filter_In in He as [He Hext]. apply String.eqb_eq in Hext.
  split; [exact He|]. exists first, rest. split; [reflexivity | exact Hext].
Qed.

Lemma discover_files_entries (p : project) :
  List.Forall text_entry (ContentHash.discover_files p).
Proof.
  apply List.Forall_forall. intros e He.
  unfold ContentHash.discover_files in He.
  apply (Permutation_in _ (sorted_entries_perm _)) in He.
  apply unique_spec in He as [He _].
  apply in_app_or in He as [Hreadme | He];
    [|apply in_app_or in He as [Hbuild | Hkey]].
  - unfold ContentHash._find_readme in Hreadme.
    destruct (ContentHash.first_text_file p ContentHash.README_NAMES)
      as [readme|] eqn:E; [|destruct Hreadme].
    destruct Hreadme as [<- | []]. eapply first_text_file_entry; eauto.
  - now apply build_files_entry in Hbuild.
  - apply key_source_files_in in Hkey as [Hkey _].
    now apply candidates_entry, is_candidate_entry in Hkey.
Qed.

Lemma hashed_bytes_later (files : list ContentHash.found) (i : nat) :
  List.Forall text_entry files ->
  ContentHash.hashed_bytes (S i) files
  = match files with
    | [] => []
    | _ => [Byte.x00]
           ++ ContentHash.documented_layout
                (map (fun e => ContentHash.file_record (fst e)
                                 (ContentHash.content_of e)) files)
    end.
Proof.
  intros Hall. revert i.
  induction Hall as [|[path n] files (f & content & Hn & Hc & _) Hall IH];
    intros i; [reflexivity|].
  cbn [ContentHash.hashed_bytes map fst snd] in *. subst n.
  unfold ContentHash.content_of. cbn [snd read_text]. rewrite Hc.
  rewrite IH. unfold ContentHash.file_record.
  destruct files as [|e files']; cbn [map ContentHash.documented_layout].
  - now rewrite !app_nil_r.
  - now rewrite <- !app_assoc.
Qed.

Lemma hashed_bytes_layout (files : list ContentHash.found) :
  List.Forall text_entry files ->
  ContentHash.hashed_bytes 0 files
  = ContentHash.documented_layout
      (map (fun e => ContentHash.file_record (fst e)
                       (ContentHash.content_of e)) files).
Proof.
  intros Hall.
  destruct Hall as [|[path n] files (f & content & Hn & Hc & _) Hall];
    [reflexivity|].
  cbn [ContentHash.hashed_bytes map fst snd] in *. subst n.
  unfold ContentHash.content_of. cbn [snd read_text]. rewrite Hc.
  rewrite hashed_bytes_later by exact Hall. unfold ContentHash.file_record.
  destruct files as [|e files']; cbn [map ContentHash.documented_layout app].
  - now rewrite !app_nil_r.
  - now rewrite <- !app_assoc.
Qed.

Lemma build_files_length (p : project) :
  (List.length (ContentHash._find_build_files p) <= 8)%nat.
Proof.
  unfold ContentHash._find_build_files.
  change 8%nat with (List.length ContentHash.BUILD_FILES).
  generalize ContentHash.BUILD_FILES as names.
  induction names as [|name names IH]; [constructor|].
  cbn [flat_map]. rewrite length_app.
  destruct (child p name) as [n|];
    [destruct (ContentHash.is_text_file (Some n))|];
    cbn [List.length] in *; unfold ContentHash.found in *; lia.
Qed.

Lemma unique_length (files : list ContentHash.found) (seen : list string) :
  (List.length (ContentHash.unique seen files) <= List.length files)%nat.
Proof.
  revert seen. induction files as [|f files IH]; intros seen;
    cbn [ContentHash.unique List.length]; [constructor|].
  destruct (Py.mem (fst f) seen); cbn [List.length];
    [specialize (IH seen) | specialize (IH (fst f :: seen))]; lia.
Qed.

(** X21.  Every file [discover_files] returns is a regular file that
    can be read, is within the size limit and has no null byte near its
    start; there are at most twelve of them; and the bytes
    [compute_hash] digests for them follow the documented layout, one
    [path, null, content] record per file with a null byte between
    records. *)
Theorem discovered_files_hash_layout (p : project) :
  List.Forall text_entry (ContentHash.discover_files p)
  /\ (List.length (ContentHash.discover_files p) <= 12)%nat
  /\ ContentHash.compute_hash (ContentHash.discover_files p)
     = "sha256:"
       +:+ SHA256.hexdigest
             (ContentHash.documented_layout
                (map (fun e => ContentHash.file_record (fst e)
                                 (ContentHash.content_of e))
                   (ContentHash.discover_files p))).
Proof.
  split; [apply discover_files_entries|]. split.
  - unfold ContentHash.discover_files.
    rewrite (Permutation_length (sorted_entries_perm _)).
    etransitivity; [apply unique_length|].
    rewrite !length_app.
    pose proof (build_files_length p) as Hb.
    assert (List.length (ContentHash._find_key_source_files p) <= 3)%nat as Hk.
    { unfold ContentHash._find_key_source_files.
      destruct (match ContentHash.source_dir_candidates p with
                | [] => _ | l => l end); [cbn; lia|].
      apply firstn_le_length. }
    destruct (ContentHash._find_readme p); cbn [List.length]; lia.
  - unfold ContentHash.compute_hash.
    now rewrite hashed_bytes_layout by apply discover_files_entries.
Qed.

(** X22.  The key source files are at most three, all carry one and
    the same suffix, that suffix is one of the source extensions, each
    is a readable text file, and when [src] or [lib] holds a candidate
    none is taken from the project root. *)
Theorem key_source_files_spec (p : project) :
  (List.length (ContentHash._find_key_source_files p) <= 3)%nat
  /\ (forall e, In e (ContentHash._find_key_source_files p) ->
        In (ContentHash.suffix_of e) ContentHash.SOURCE_EXTENSIONS
        /\ text_entry e)
  /\ (forall e1 e2,
        In e1 (ContentHash._find_key_source_files p) ->
        In e2 (ContentHash._find_key_source_files p) ->
        ContentHash.suffix_of e1 = ContentHash.suffix_of e2)
  /\ (ContentHash.source_dir_candidates p <> [] ->
      forall e, In e (ContentHash._find_key_source_files p) ->
        In e (ContentHash.source_dir_candidates p)).
Proof.
  split; [|split; [|split]].
  - unfold ContentHash._find_key_source_files.
    destruct (match ContentHash.source_dir_candidates p with
              | [] => _ | l => l end); [cbn; lia|].
    apply firstn_le_length.
  - intros e He. apply key_source_files_in in He as [He _].
    apply candidates_entry, is_candidate_entry in He. tauto.
  - intros e1 e2 H1 H2.
    apply key_source_files_in in H1 as (_ & f1 & r1 & E1 & ->).
    apply key_source_files_in in H2 as (_ & f2 & r2 & E2 & ->).
    rewrite E1 in E2. now injection E2 as -> ->.
  - intros Hsrc e He. apply key_source_files_in in He as [He _].
    destruct (ContentHash.source_dir_candidates p); [congruence | exact He].
Qed.

Lemma list_byte_of_string_app (s1 s2 : string) :
  list_byte_of_string (s1 +:+ s2)
  = list_byte_of_string s1 ++ list_byte_of_string s2.
Proof.
  induction s1 as [|c s1 IH]; [reflexivity|].
  change (String c s1 +:+ s2) with (String c (s1 +:+ s2)).
  change (list_byte_of_string (String c (s1 +:+ s2)))
    with (byte_of_ascii c :: list_byte_of_string (s1 +:+ s2)).
  change (list_byte_of_string (String c s1))
    with (byte_of_ascii c :: list_byte_of_string s1).
  now rewrite IH.
Qed.

(** X23.  The hashed layout does not mark where a file ends: one file
    whose content holds null bytes is digested exactly like the
    sequence of files its content spells out, so the two file sets get
    the same hash. *)
Theorem hash_layout_ambiguous (a b c d : string) :
  ContentHash.compute_hash
    [(a, text_file (b +:+ String ContentHash.NUL (c +:+ String ContentHash.NUL d)))]
  = ContentHash.compute_hash [(a, text_file b); (c, text_file d)].
Proof.
  unfold ContentHash.compute_hash. f_equal. f_equal.
  cbn [ContentHash.hashed_bytes read_text text_file f_content].
  rewrite !app_nil_r, list_byte_of_string_app.
  change (list_byte_of_string (String ContentHash.NUL (c +:+ String ContentHash.NUL d)))
    with (Byte.x00 :: list_byte_of_string (c +:+ String ContentHash.NUL d)).
  rewrite list_byte_of_string_app.
  change (list_byte_of_string (String ContentHash.NUL d))
    with (Byte.x00 :: list_byte_of_string d).
  reflexivity.
Qed.

(** X24.  [--check] accepts exactly the hash a plain run prints: when a
    run without [--check] prints a hash and exits with 0, a run with
    [--check] on the same project exits with 0 if it is given that hash
    and with 1 if it is given any other text. *)
Theorem check_matches_printed_hash (p : project) (h expected : string)
    (json : bool) :
  ContentHash.main (ContentHash.MkArguments true false None) p
  = (0, Some (ContentHash.Line h)) ->
  fst (ContentHash.main (ContentHash.MkArguments true json (Some expected)) p)
  = if String.eqb h expected then 0 else 1.
Proof.
  unfold ContentHash.main.
  cbn [ContentHash.project_is_dir ContentHash.json_output ContentHash.check negb].
  destruct (ContentHash.discover_files p) as [|e files]; [discriminate|].
  intros [= <-].
  destruct (String.eqb _ expected); reflexivity.
Qed.

Lemma check_matches_printed_hash_witness :
  fst (ContentHash.main
         (ContentHash.MkArguments true true
            (Some "sha256:83cf1f23af61fc52d28cc7387c6f32a5b213ae2d80ab8b0f9ef568e29bf16727"))
         python_tree)
  = 0.
Proof.
  etransitivity.
  - apply (check_matches_printed_hash python_tree
             "sha256:83cf1f23af61fc52d28cc7387c6f32a5b213ae2d80ab8b0f9ef568e29bf16727").
    vm_compute. reflexivity.
  - reflexivity.
Defined.
